(** * Toolsets and the dynamic discovery tools of github-mcp-server

    A shallow embedding of package [toolsets] (the [Toolset] and
    [ToolsetGroup] types with their methods), of the three dynamic tool
    handlers of [pkg/github/dynamic_tools.go] and of [InitToolsets],
    followed by the properties of that code.

    Go pointers to [Toolset] structs are locations of a store; the group
    maps names to locations, so that a toolset reached through the group
    and through a variable of the caller is one object. *)

From stdpp Require Import gmap strings list sorting functions.

Local Open Scope string_scope.
Local Open Scope list_scope.
Local Open Scope stdpp_scope.

(** ** What the code takes from other packages *)

(** Go's [error] values are represented by their message. *)
Definition error := string.

(** The collaborators that are not part of this repository's source:
    the handler function types of mcp-go (opaque: the code only stores
    them and hands them on), the resource template descriptor, the
    request type with the helper [requiredParam] (which either yields the
    string argument or an error), and the string quoting of
    [encoding/json]. *)
Class External := {
  ToolHandlerFunc : Type;
  ResourceTemplateHandlerFunc : Type;
  mcp_ResourceTemplate : Type;
  CallToolRequest : Type;
  requiredParam : CallToolRequest → string → string + error;
  json_quote : string → string;
}.

(** Package [mcp]: the two fields of [mcp.Tool] that the code reads, and
    the results built by [NewToolResultText] and [NewToolResultError]. *)
Module mcp.

Record Tool := { Name : string; Description : string }.

Record TextContent := { Type_ : string; Text : string }.

Record CallToolResult := { Content : list TextContent; IsError : bool }.

Definition NewToolResultText (text : string) : CallToolResult :=
  {| Content := [ {| Type_ := "text"; Text := text |} ]; IsError := false |}.

Definition NewToolResultError (text : string) : CallToolResult :=
  {| Content := [ {| Type_ := "text"; Text := text |} ]; IsError := true |}.

End mcp.

(** Package [server]: a [ServerTool] pairs a tool with its handler.  The
    host server is observed through the calls made to its three
    registration primitives, oldest first. *)
Module server.
Section server.
Context `{External}.

Record ServerTool := { Tool : mcp.Tool; Handler : ToolHandlerFunc }.

Inductive Call :=
| CallAddTool (tool : mcp.Tool) (handler : ToolHandlerFunc)
| CallAddTools (tools : list ServerTool)
| CallAddResourceTemplate (template : mcp_ResourceTemplate)
                          (handler : ResourceTemplateHandlerFunc).

Definition MCPServer := list Call.

Definition AddTool (tool : mcp.Tool) (handler : ToolHandlerFunc)
    (s : MCPServer) : MCPServer :=
  s ++ [CallAddTool tool handler].

Definition AddTools (tools : list ServerTool) (s : MCPServer) : MCPServer :=
  s ++ [CallAddTools tools].

Definition AddResourceTemplate (template : mcp_ResourceTemplate)
    (handler : ResourceTemplateHandlerFunc) (s : MCPServer) : MCPServer :=
  s ++ [CallAddResourceTemplate template handler].

(** The tools a call submits to the server. *)
Definition submitted (c : Call) : list ServerTool :=
  match c with
  | CallAddTool tool handler => [ {| Tool := tool; Handler := handler |} ]
  | CallAddTools tools => tools
  | CallAddResourceTemplate _ _ => []
  end.

End server.
End server.

(** ** Package [toolsets] *)

Module toolsets.

Section types.
Context `{External}.

Record ResourceTemplate := {
  templateResource : mcp_ResourceTemplate;
  handler : ResourceTemplateHandlerFunc;
}.

Definition NewResourceTemplate (templateResource : mcp_ResourceTemplate)
    (handler : ResourceTemplateHandlerFunc) : ResourceTemplate :=
  {| templateResource := templateResource; handler := handler |}.

Definition NewServerTool (tool : mcp.Tool) (handler : ToolHandlerFunc)
    : server.ServerTool :=
  {| server.Tool := tool; server.Handler := handler |}.

End types.

(** *** Toolset

    The methods have a pointer receiver; here each is a function on the
    struct the receiver points to, applied to the store by the callers
    below. *)
Module Toolset.
Section Toolset.
Context `{External}.

Record t := {
  Name : string;
  Description : string;
  Enabled : bool;
  readOnly : bool;
  writeTools : list server.ServerTool;
  readTools : list server.ServerTool;
  resourceTemplates : list ResourceTemplate;
}.

Definition GetActiveTools (ts : t) : list server.ServerTool :=
  if Enabled ts then
    if readOnly ts then readTools ts
    else readTools ts ++ writeTools ts
  else [].

Definition GetAvailableTools (ts : t) : list server.ServerTool :=
  if readOnly ts then readTools ts
  else readTools ts ++ writeTools ts.

Definition RegisterTools (ts : t) (s : server.MCPServer) : server.MCPServer :=
  if negb (Enabled ts) then s
  else
    let s := fold_left
               (λ s tool, server.AddTool (server.Tool tool) (server.Handler tool) s)
               (readTools ts) s in
    let s := if negb (readOnly ts)
             then fold_left
                    (λ s tool, server.AddTool (server.Tool tool) (server.Handler tool) s)
                    (writeTools ts) s
             else s in
    fold_left
      (λ s resource,
         server.AddResourceTemplate (templateResource resource) (handler resource) s)
      (resourceTemplates ts) s.

Definition SetReadOnly (ts : t) : t :=
  {| Name := Name ts; Description := Description ts; Enabled := Enabled ts;
     readOnly := true;
     writeTools := writeTools ts; readTools := readTools ts;
     resourceTemplates := resourceTemplates ts |}.

Definition AddWriteTools (tools : list server.ServerTool) (ts : t) : t :=
  if negb (readOnly ts) then
    {| Name := Name ts; Description := Description ts; Enabled := Enabled ts;
       readOnly := readOnly ts;
       writeTools := writeTools ts ++ tools; readTools := readTools ts;
       resourceTemplates := resourceTemplates ts |}
  else ts.

Definition AddReadTools (tools : list server.ServerTool) (ts : t) : t :=
  {| Name := Name ts; Description := Description ts; Enabled := Enabled ts;
     readOnly := readOnly ts;
     writeTools := writeTools ts; readTools := readTools ts ++ tools;
     resourceTemplates := resourceTemplates ts |}.

Definition AddTemplateResources (resources : list ResourceTemplate) (ts : t) : t :=
  {| Name := Name ts; Description := Description ts; Enabled := Enabled ts;
     readOnly := readOnly ts;
     writeTools := writeTools ts; readTools := readTools ts;
     resourceTemplates := resourceTemplates ts ++ resources |}.

(** The assignment [ts.Enabled = v] made by [EnableToolset], by the
    enable handler and by the tests. *)
Definition set_Enabled (v : bool) (ts : t) : t :=
  {| Name := Name ts; Description := Description ts; Enabled := v;
     readOnly := readOnly ts;
     writeTools := writeTools ts; readTools := readTools ts;
     resourceTemplates := resourceTemplates ts |}.

(** The struct that [NewToolset] allocates. *)
Definition new (name description : string) : t :=
  {| Name := name; Description := description; Enabled := false;
     readOnly := false;
     writeTools := []; readTools := []; resourceTemplates := [] |}.

(** What a client of the package can do to a toolset it holds. *)
Inductive op :=
| OpSetReadOnly
| OpAddWriteTools (tools : list server.ServerTool)
| OpAddReadTools (tools : list server.ServerTool)
| OpAddTemplateResources (resources : list ResourceTemplate)
| OpSetEnabled (v : bool).

Definition apply (o : op) (ts : t) : t :=
  match o with
  | OpSetReadOnly => SetReadOnly ts
  | OpAddWriteTools tools => AddWriteTools tools ts
  | OpAddReadTools tools => AddReadTools tools ts
  | OpAddTemplateResources resources => AddTemplateResources resources ts
  | OpSetEnabled v => set_Enabled v ts
  end.

Definition run (os : list op) (ts : t) : t :=
  fold_left (λ ts o, apply o ts) os ts.

End Toolset.
End Toolset.

(** Addresses of [Toolset] structs in the store. *)
Abbreviation loc := nat.

(** *** ToolsetGroup *)
Module ToolsetGroup.

(** [Toolsets] holds pointers: the address of each member in the
    store.  Nil pointers are not stored by [AddToolset], and the field
    holds none here. *)
Record t := {
  Toolsets : gmap string loc;
  everythingOn : bool;
  readOnly : bool;
}.

Definition set_Toolsets (f : gmap string loc → gmap string loc) (tg : t) : t :=
  {| Toolsets := f (Toolsets tg); everythingOn := everythingOn tg;
     readOnly := readOnly tg |}.

Definition set_everythingOn (v : bool) (tg : t) : t :=
  {| Toolsets := Toolsets tg; everythingOn := v; readOnly := readOnly tg |}.

End ToolsetGroup.

Definition NewToolsetGroup (readOnly : bool) : ToolsetGroup.t :=
  {| ToolsetGroup.Toolsets := ∅;
     ToolsetGroup.everythingOn := false;
     ToolsetGroup.readOnly := readOnly |}.

(** *** The program state

    Addresses of [Toolset] structs are natural numbers.  A Go pointer
    always points to a live struct, so the store is total; [next] is the
    first address that [NewToolset] has not handed out.  The code works
    on one group and one host server, which are part of the state. *)
Section state.
Context `{External}.

Record state := {
  store : loc → Toolset.t;
  next : loc;
  group : ToolsetGroup.t;
  host : server.MCPServer;
}.

(** State-passing computations, with the bind notation of stdpp. *)
Definition M (A : Type) : Type := state → A * state.

#[export] Instance M_ret : MRet M := λ A a σ, (a, σ).
#[export] Instance M_bind : MBind M :=
  λ A B f c σ, let '(a, σ') := c σ in f a σ'.

Definition gets {A} (f : state → A) : M A := λ σ, (f σ, σ).

Definition modify (f : state → state) : M unit := λ σ, ((), f σ).

Definition set_store (f : (loc → Toolset.t) → (loc → Toolset.t)) (σ : state) : state :=
  {| store := f (store σ); next := next σ; group := group σ; host := host σ |}.

Definition set_next (n : loc) (σ : state) : state :=
  {| store := store σ; next := n; group := group σ; host := host σ |}.

Definition set_group (f : ToolsetGroup.t → ToolsetGroup.t) (σ : state) : state :=
  {| store := store σ; next := next σ; group := f (group σ); host := host σ |}.

Definition set_host (f : server.MCPServer → server.MCPServer) (σ : state) : state :=
  {| store := store σ; next := next σ; group := group σ; host := f (host σ) |}.

(** A method with receiver [ts *Toolset] that updates the struct. *)
Definition on (ts : loc) (f : Toolset.t → Toolset.t) : M unit :=
  modify (set_store (λ st, <[ts := f (st ts)]> st)).

(** Reading the struct behind a pointer. *)
Definition deref (ts : loc) : M Toolset.t := gets (λ σ, store σ ts).

Definition NewToolset (name description : string) : M loc :=
  ts ← gets next;
  _ ← modify (set_store (λ st, <[ts := Toolset.new name description]> st));
  _ ← modify (set_next (S ts));
  mret ts.

Definition AddToolset (ts : loc) : M unit :=
  tg ← gets group;
  _ ← (if ToolsetGroup.readOnly tg then on ts Toolset.SetReadOnly else mret ());
  t ← deref ts;
  modify (set_group (ToolsetGroup.set_Toolsets (λ m, <[Toolset.Name t := ts]> m))).

Definition IsEnabled (name : string) : M bool :=
  tg ← gets group;
  if ToolsetGroup.everythingOn tg then mret true
  else
    match ToolsetGroup.Toolsets tg !! name with
    | None => mret false
    | Some feature => t ← deref feature; mret (Toolset.Enabled t)
    end.

Definition EnableToolset (name : string) : M (option error) :=
  if decide (name = "all") then
    _ ← modify (set_group (ToolsetGroup.set_everythingOn true));
    mret None
  else
    tg ← gets group;
    match ToolsetGroup.Toolsets tg !! name with
    | None => mret (Some ("toolset " +:+ name +:+ " does not exist"))
    | Some toolset =>
        _ ← on toolset (Toolset.set_Enabled true);
        _ ← modify (set_group (ToolsetGroup.set_Toolsets (λ m, <[name := toolset]> m)));
        mret None
    end.

Fixpoint EnableToolsets (names : list string) : M (option error) :=
  match names with
  | [] => mret None
  | name :: names =>
      err ← EnableToolset name;
      match err with
      | Some e => mret (Some e)
      | None => EnableToolsets names
      end
  end.

(** A run of [AddToolset] calls, in order. *)
Fixpoint AddToolsets (tss : list loc) : M unit :=
  match tss with
  | [] => mret ()
  | ts :: tss => _ ← AddToolset ts; AddToolsets tss
  end.

(** What the clients of the package do with the group and its
    toolsets, and runs of such calls. *)
Inductive call :=
| DoNewToolset (name description : string)
| DoToolset (ts : loc) (o : Toolset.op)
| DoAddToolset (ts : loc)
| DoEnableToolset (name : string).

Definition exec (c : call) : M unit :=
  match c with
  | DoNewToolset name description => _ ← NewToolset name description; mret ()
  | DoToolset ts o => on ts (Toolset.apply o)
  | DoAddToolset ts => AddToolset ts
  | DoEnableToolset name => _ ← EnableToolset name; mret ()
  end.

Fixpoint execs (cs : list call) : M unit :=
  match cs with
  | [] => mret ()
  | c :: cs => _ ← exec c; execs cs
  end.

(** [ToolsetGroup.RegisterTools]: the loop body for the members met in
    the order [tss], and the method, which ranges over the map (Go leaves
    the order of that iteration open). *)
Fixpoint range_RegisterTools (tss : list loc) : M unit :=
  match tss with
  | [] => mret ()
  | toolset :: tss =>
      t ← deref toolset;
      _ ← modify (set_host (Toolset.RegisterTools t));
      range_RegisterTools tss
  end.

Definition RegisterTools : M unit :=
  tg ← gets group;
  range_RegisterTools (map_to_list (ToolsetGroup.Toolsets tg)).*2.

End state.

End toolsets.

(** ** [encoding/json] on the two map types the handlers marshal

    [json.Marshal] writes a non-nil map as an object whose members are
    sorted by key, and does not fail on maps from strings to booleans or
    strings. *)
Module json.
Section json.
Context `{External}.

Definition key_le {V} (p q : string * V) : Prop := String.leb p.1 q.1 = true.

#[export] Instance key_le_dec {V} : RelDecision (@key_le V).
Proof. intros p q. unfold key_le. apply _. Defined.

Definition members {V} (m : gmap string V) : list (string * V) :=
  merge_sort key_le (map_to_list m).

Definition object (enc : list (string * string)) : string :=
  "{" +:+ String.concat "," (map (λ kv, json_quote kv.1 +:+ ":" +:+ kv.2) enc) +:+ "}".

Definition bool_text (b : bool) : string := if b then "true" else "false".

Definition Marshal {V} (value : V → string) (m : gmap string V)
    : string * option error :=
  (object (map (λ kv, (kv.1, value kv.2)) (members m)), None).

End json.
End json.

(** ** Package [github]: the dynamic tools and [InitToolsets]

    [EnableToolset], [ListAvailableToolsets] and [GetToolsetsTools] each
    return a tool descriptor and a handler closed over the group (and,
    for the first, the host server); the definitions below are the
    handlers, running on the state that holds both. *)
Module github.
Section github.
Context `{External}.
Import toolsets.

Definition result : Type := option mcp.CallToolResult * option error.

Definition EnableToolset (request : CallToolRequest) : M result :=
  match requiredParam request "toolset" with
  | inr err => mret (Some (mcp.NewToolResultError err), None)
  | inl toolsetName =>
      tg ← gets group;
      match ToolsetGroup.Toolsets tg !! toolsetName with
      | None =>
          mret (Some (mcp.NewToolResultError
                        ("Toolset " +:+ toolsetName +:+ " not found")), None)
      | Some toolset =>
          t ← deref toolset;
          if Toolset.Enabled t then
            mret (Some (mcp.NewToolResultText
                          ("Toolset " +:+ toolsetName +:+ " is already enabled")), None)
          else
            _ ← on toolset (Toolset.set_Enabled true);
            t ← deref toolset;
            _ ← modify (set_host (server.AddTools (Toolset.GetActiveTools t)));
            mret (Some (mcp.NewToolResultText
                          ("Toolset " +:+ toolsetName +:+ " enabled")), None)
      end
  end.

(** The loop [for name := range toolsetGroup.Toolsets] that fills
    [featureMap], over the keys in the order [names]. *)
Fixpoint range_features (names : list string) (featureMap : gmap string bool)
    : M (gmap string bool) :=
  match names with
  | [] => mret featureMap
  | name :: names =>
      b ← IsEnabled name;
      range_features names (<[name := b]> featureMap)
  end.

Definition ListAvailableToolsets (_ : CallToolRequest) : M result :=
  tg ← gets group;
  featureMap ← range_features (map_to_list (ToolsetGroup.Toolsets tg)).*1 ∅;
  match json.Marshal json.bool_text featureMap with
  | (_, Some err) => mret (None, Some ("failed to marshal features: " +:+ err))
  | (r, None) => mret (Some (mcp.NewToolResultText r), None)
  end.

(** The loop that fills [tools] from the active tools. *)
Definition range_tools (active : list server.ServerTool) (tools : gmap string string)
    : gmap string string :=
  fold_left
    (λ tools st,
       <[mcp.Name (server.Tool st) := mcp.Description (server.Tool st)]> tools)
    active tools.

Definition GetToolsetsTools (request : CallToolRequest) : M result :=
  match requiredParam request "toolset" with
  | inr err => mret (Some (mcp.NewToolResultError err), None)
  | inl toolsetName =>
      tg ← gets group;
      match ToolsetGroup.Toolsets tg !! toolsetName with
      | None =>
          mret (Some (mcp.NewToolResultError
                        ("Toolset " +:+ toolsetName +:+ " not found")), None)
      | Some toolset =>
          t ← deref toolset;
          let tools := range_tools (Toolset.GetActiveTools t) ∅ in
          match json.Marshal json_quote tools with
          | (_, Some err) => mret (None, Some ("failed to marshal features: " +:+ err))
          | (r, None) => mret (Some (mcp.NewToolResultText r), None)
          end
      end
  end.

(** The tools and resource templates that [InitToolsets] obtains from
    the constructors of the domain operations ([GetMe],
    [SearchRepositories], ...) and of the three dynamic tools, per
    toolset and in the order of the source. *)
Record Catalog := {
  context_read : list server.ServerTool;
  repos_resources : list ResourceTemplate;
  repos_read : list server.ServerTool;
  repos_write : list server.ServerTool;
  issues_read : list server.ServerTool;
  issues_write : list server.ServerTool;
  search_read : list server.ServerTool;
  pull_requests_read : list server.ServerTool;
  pull_requests_write : list server.ServerTool;
  code_security_read : list server.ServerTool;
  dynamic_read : list server.ServerTool;
}.

Definition DefaultTools : list string :=
  ["repos"; "issues"; "pull_requests"; "search"; "context"; "dynamic"].

(** [InitToolsets] returns the new group, or nil and an error.  Here
    the new group replaces the group of the state and the error is the
    result. *)
Definition InitToolsets (c : Catalog) (passedToolsets : list string)
    (readOnly : bool) : M (option error) :=
  _ ← modify (set_group (λ _, NewToolsetGroup readOnly));
  contextTools ← NewToolset "context"
    "Tools that provide context about the current user and GitHub context you are operating in";
  _ ← on contextTools (Toolset.AddReadTools (context_read c));
  repos ← NewToolset "repos" "GitHub Repository related tools";
  _ ← on repos (Toolset.AddTemplateResources (repos_resources c));
  _ ← on repos (Toolset.AddReadTools (repos_read c));
  _ ← on repos (Toolset.AddWriteTools (repos_write c));
  issues ← NewToolset "issues" "GitHub Issues related tools";
  _ ← on issues (Toolset.AddReadTools (issues_read c));
  _ ← on issues (Toolset.AddWriteTools (issues_write c));
  search ← NewToolset "search" "GitHub Search related tools";
  _ ← on search (Toolset.AddReadTools (search_read c));
  pullRequests ← NewToolset "pull_requests" "GitHub Pull Request related tools";
  _ ← on pullRequests (Toolset.AddReadTools (pull_requests_read c));
  _ ← on pullRequests (Toolset.AddWriteTools (pull_requests_write c));
  codeSecurity ← NewToolset "code_security"
    "Code security related tools, such as GitHub Code Scanning";
  _ ← on codeSecurity (Toolset.AddReadTools (code_security_read c));
  experiments ← NewToolset "experiments"
    "Experimental features that are not considered stable yet";
  _ ← AddToolset contextTools;
  _ ← AddToolset repos;
  _ ← AddToolset issues;
  _ ← AddToolset search;
  _ ← AddToolset pullRequests;
  _ ← AddToolset codeSecurity;
  _ ← AddToolset experiments;
  dynamicToolSelection ← NewToolset "dynamic"
    "Discover GitHub MCP tools that can help achieve tasks by enabling additional sets of tools, you can control the enablement of any toolset to access its tools when this toolset is enabled.";
  _ ← on dynamicToolSelection (Toolset.AddReadTools (dynamic_read c));
  _ ← AddToolset dynamicToolSelection;
  EnableToolsets passedToolsets.

(** [ToolsetEnum] collects the keys of the group and hands them to
    [mcp.Enum]; the result here is that list of names. *)
Definition ToolsetEnum : M (list string) :=
  tg ← gets group;
  mret (map_to_list (ToolsetGroup.Toolsets tg)).*1.

End github.
End github.

(** ** Concrete collaborators and states used to run the definitions *)
Module sample.

(** Handlers and templates are numbered; a request is its optional
    [toolset] argument, and [requiredParam] reports a missing or empty
    one; quoting wraps in double quotes. *)
Definition ext : External := {|
  ToolHandlerFunc := nat;
  ResourceTemplateHandlerFunc := nat;
  mcp_ResourceTemplate := string;
  CallToolRequest := option string;
  requiredParam := λ r p,
    match r with
    | Some v => if decide (v = EmptyString) then inr ("missing required parameter: " +:+ p)
                else inl v
    | None => inr ("missing required parameter: " +:+ p)
    end;
  json_quote := λ s, String (Ascii.ascii_of_nat 34) s
                       +:+ String (Ascii.ascii_of_nat 34) EmptyString;
|}.

Section sample.
#[local] Existing Instance ext.
Import toolsets.

Definition tool (name description : string) (h : nat) : server.ServerTool :=
  NewServerTool {| mcp.Name := name; mcp.Description := description |} h.

Definition search_repositories := tool "search_repositories" "Search repositories" 1.
Definition create_repository := tool "create_repository" "Create repository" 2.

Definition zero : Toolset.t := Toolset.new EmptyString EmptyString.

(** A toolset [repos] with one read tool and one write tool. *)
Definition repos : Toolset.t :=
  Toolset.AddWriteTools [create_repository]
    (Toolset.AddReadTools [search_repositories]
       (Toolset.new "repos" "GitHub Repository related tools")).

(** The state with an empty group, an empty store and a host server
    that has received no call. *)
Definition empty (readOnly : bool) : state :=
  {| store := λ _, zero; next := 0;
     group := NewToolsetGroup readOnly; host := [] |}.

(** A group that holds [repos] (not enabled) at address 0. *)
Definition one : state :=
  {| store := <[0 := repos]> (λ _, zero); next := 1;
     group := ToolsetGroup.set_Toolsets (λ m, <["repos" := 0]> m)
                (NewToolsetGroup false);
     host := [] |}.

(** The same with [repos] enabled. *)
Definition one_enabled : state :=
  set_store (λ st, <[0 := Toolset.set_Enabled true repos]> st) one.

(** An empty group, and a toolset named like the sentinel of
    [EnableToolset] waiting at address 0 to be added. *)
Definition with_all : state :=
  set_store (λ st, <[0 := Toolset.new "all" "Everything"]> st)
    (set_next 1 (empty false)).

(** A small catalog for [InitToolsets]. *)
Definition catalog : github.Catalog :=
  {| github.context_read := [tool "get_me" "Get my user profile" 3];
     github.repos_resources := [NewResourceTemplate "repo://{owner}/{repo}/contents{/path*}" 4];
     github.repos_read := [search_repositories];
     github.repos_write := [create_repository];
     github.issues_read := [tool "get_issue" "Get an issue" 5];
     github.issues_write := [tool "create_issue" "Create an issue" 6];
     github.search_read := [tool "search_code" "Search code" 7];
     github.pull_requests_read := [tool "get_pull_request" "Get a pull request" 8];
     github.pull_requests_write := [tool "merge_pull_request" "Merge a pull request" 9];
     github.code_security_read := [tool "get_code_scanning_alert" "Get an alert" 10];
     github.dynamic_read :=
       [tool "list_available_toolsets" "List toolsets" 11;
        tool "get_toolset_tools" "List the tools of a toolset" 12;
        tool "enable_toolset" "Enable a toolset" 13] |}.

(** Two toolsets named [repos], at addresses 0 and 1, the second one
    enabled, and an empty group. *)
Definition twins : state :=
  {| store := <[1 := Toolset.set_Enabled true
                       (Toolset.new "repos" "Another toolset of that name")]>
                (<[0 := repos]> (λ _, zero));
     next := 2;
     group := NewToolsetGroup false; host := [] |}.

(** A group with the keys [repos] and [issues], the second one enabled
    and with a resource template. *)
Definition two : state :=
  {| store := <[1 := Toolset.set_Enabled true
                       (Toolset.AddTemplateResources
                          [NewResourceTemplate "repo://{owner}/{repo}/issues" 14]
                          (Toolset.AddReadTools [tool "get_issue" "Get an issue" 5]
                             (Toolset.new "issues" "GitHub Issues related tools")))]>
                (<[0 := repos]> (λ _, zero));
     next := 2;
     group := ToolsetGroup.set_Toolsets (λ m, <["issues" := 1]> (<["repos" := 0]> m))
                (NewToolsetGroup false);
     host := [] |}.

End sample.
End sample.

(** ** Notions used to state and prove the properties *)
Module Logic.
Section Logic.
Context `{External}.
Import toolsets.

(** The calls that registering a list of tools, or of resource
    templates, one by one appends to the host server. *)
Definition tool_calls (tools : list server.ServerTool) : list server.Call :=
  map (λ tool, server.CallAddTool (server.Tool tool) (server.Handler tool)) tools.

Definition template_calls (resources : list ResourceTemplate) : list server.Call :=
  map (λ r, server.CallAddResourceTemplate (templateResource r) (handler r)) resources.

(** The state after the handler has enabled the toolset at [ts]. *)
Definition enabled_at (ts : loc) (σ : state) : state :=
  set_host (server.AddTools (Toolset.GetActiveTools (Toolset.set_Enabled true (store σ ts))))
    (set_store (λ st, <[ts := Toolset.set_Enabled true (st ts)]> st) σ).

(** Pre- and postconditions for state-passing computations. *)
Definition triple {A} (P : state → Prop) (c : M A) (Q : A → state → Prop) : Prop :=
  ∀ σ, P σ → Q (c σ).1 (c σ).2.

(** [built n0 names keys σ]: the toolsets allocated since address [n0]
    carry the names [names], in order, and the group has the keys
    [keys]. *)
Definition built (n0 : loc) (names : list string) (keys : gmap string loc)
    (σ : state) : Prop :=
  next σ = n0 + length names
  ∧ (∀ i k, names !! i = Some k → Toolset.Name (store σ (n0 + i)) = k)
  ∧ ToolsetGroup.Toolsets (group σ) = keys.

(** The keys of the group after [InitToolsets], for the toolsets
    allocated from address [n0] on. *)
Definition init_keys (n0 : loc) : gmap string loc :=
  <["dynamic" := n0 + 7]>
    (<["experiments" := n0 + 6]>
       (<["code_security" := n0 + 5]>
          (<["pull_requests" := n0 + 4]>
             (<["search" := n0 + 3]>
                (<["issues" := n0 + 2]>
                   (<["repos" := n0 + 1]>
                      (<["context" := n0 + 0]> ∅))))))).

(** The calls that [Toolset.RegisterTools] makes for a toolset. *)
Definition toolset_calls (ts : Toolset.t) : list server.Call :=
  if Toolset.Enabled ts then
    tool_calls (Toolset.readTools ts)
    ++ (if Toolset.readOnly ts then [] else tool_calls (Toolset.writeTools ts))
    ++ template_calls (Toolset.resourceTemplates ts)
  else [].

(** What a run of operations hands to [AddReadTools] and to
    [AddTemplateResources], and to [AddWriteTools] before the first
    [SetReadOnly]. *)
Definition added_read (os : list Toolset.op) : list server.ServerTool :=
  flat_map (λ o, match o with Toolset.OpAddReadTools tools => tools | _ => [] end) os.

Definition added_resources (os : list Toolset.op) : list ResourceTemplate :=
  flat_map (λ o, match o with
                 | Toolset.OpAddTemplateResources resources => resources
                 | _ => []
                 end) os.

Fixpoint added_write (os : list Toolset.op) : list server.ServerTool :=
  match os with
  | [] => []
  | Toolset.OpSetReadOnly :: _ => []
  | Toolset.OpAddWriteTools tools :: os => tools ++ added_write os
  | _ :: os => added_write os
  end.

Definition is_SetReadOnly (o : Toolset.op) : bool :=
  match o with Toolset.OpSetReadOnly => true | _ => false end.

(** [later σ σ']: from [σ] to [σ'] the keys of the group are the same and
    nothing that was on has been turned off. *)
Definition later (σ σ' : state) : Prop :=
  ToolsetGroup.Toolsets (group σ') = ToolsetGroup.Toolsets (group σ)
  ∧ (ToolsetGroup.everythingOn (group σ) = true →
     ToolsetGroup.everythingOn (group σ') = true)
  ∧ ∀ l, Toolset.Enabled (store σ l) = true → Toolset.Enabled (store σ' l) = true.

(** A name that [EnableToolset] accepts. *)
Definition accepted (σ : state) (name : string) : Prop :=
  name = "all" ∨ is_Some (ToolsetGroup.Toolsets (group σ) !! name).

(** The map that the list handler marshals. *)
Definition features (σ : state) : gmap string bool :=
  fold_left (λ m name, <[name := (IsEnabled name σ).1]> m)
    (map_to_list (ToolsetGroup.Toolsets (group σ))).*1 ∅.

(** [staged n0 h structs tg σ]: the toolsets allocated since address
    [n0] are [structs], in order, the group is [tg] and the host server
    is [h]. *)
Definition staged (n0 : loc) (h : server.MCPServer) (structs : list Toolset.t)
    (tg : ToolsetGroup.t) (σ : state) : Prop :=
  next σ = n0 + length structs
  ∧ (∀ i t, structs !! i = Some t → store σ (n0 + i) = t)
  ∧ group σ = tg
  ∧ host σ = h.

(** What [AddToolset] does to the toolset under the policy [ro] of the
    group. *)
Definition policy (ro : bool) (t : Toolset.t) : Toolset.t :=
  if ro then Toolset.SetReadOnly t else t.

(** The names of the toolsets of [InitToolsets], in the order of their
    allocation, and for each its read tools, write tools and resource
    templates. *)
Definition init_names : list string :=
  ["context"; "repos"; "issues"; "search"; "pull_requests"; "code_security";
   "experiments"; "dynamic"].

Definition blueprint (c : github.Catalog)
    : list (string * list server.ServerTool * list server.ServerTool
            * list ResourceTemplate) :=
  [ ("context", github.context_read c, [], []);
    ("repos", github.repos_read c, github.repos_write c, github.repos_resources c);
    ("issues", github.issues_read c, github.issues_write c, []);
    ("search", github.search_read c, [], []);
    ("pull_requests", github.pull_requests_read c, github.pull_requests_write c, []);
    ("code_security", github.code_security_read c, [], []);
    ("experiments", [], [], []);
    ("dynamic", github.dynamic_read c, [], []) ].

End Logic.
End Logic.

(** ** Properties of [Toolset] *)
Module ToolsetFacts.
Section ToolsetFacts.
Context `{External}.
Import toolsets Logic.

Lemma SetReadOnly_readOnly ts : Toolset.readOnly (Toolset.SetReadOnly ts) = true.
Proof. reflexivity. Qed.

Lemma AddWriteTools_readOnly tools ts :
  Toolset.readOnly ts = true → Toolset.AddWriteTools tools ts = ts.
Proof. unfold Toolset.AddWriteTools. by intros ->. Qed.

Lemma AddWriteTools_mutable tools ts :
  Toolset.readOnly ts = false →
  Toolset.writeTools (Toolset.AddWriteTools tools ts) = Toolset.writeTools ts ++ tools.
Proof. unfold Toolset.AddWriteTools. by intros ->. Qed.

(** One operation keeps a read-only toolset read-only and keeps its
    write tools. *)
Lemma apply_readOnly o ts :
  Toolset.readOnly ts = true →
  Toolset.readOnly (Toolset.apply o ts) = true
  ∧ Toolset.writeTools (Toolset.apply o ts) = Toolset.writeTools ts.
Proof.
  intros Hro. destruct o; simpl; try done.
  by rewrite AddWriteTools_readOnly.
Qed.

Lemma run_readOnly os : ∀ ts,
  Toolset.readOnly ts = true →
  Toolset.readOnly (Toolset.run os ts) = true
  ∧ Toolset.writeTools (Toolset.run os ts) = Toolset.writeTools ts.
Proof.
  induction os as [|o os IH]; intros ts Hro; [done|].
  destruct (apply_readOnly o ts Hro) as [Hro' Hw].
  destruct (IH _ Hro') as [? Hw'].
  change (Toolset.run (o :: os) ts) with (Toolset.run os (Toolset.apply o ts)).
  split; [done | by rewrite Hw'].
Qed.

Lemma fold_AddTool tools : ∀ s,
  fold_left (λ s tool, server.AddTool (server.Tool tool) (server.Handler tool) s) tools s
  = s ++ tool_calls tools.
Proof.
  induction tools as [|tool tools IH]; intros s; simpl.
  - by rewrite app_nil_r.
  - rewrite IH. unfold server.AddTool. by rewrite <- app_assoc.
Qed.

Lemma fold_AddResourceTemplate resources : ∀ s,
  fold_left
    (λ s r, server.AddResourceTemplate (templateResource r) (handler r) s) resources s
  = s ++ template_calls resources.
Proof.
  induction resources as [|r resources IH]; intros s; simpl.
  - by rewrite app_nil_r.
  - rewrite IH. unfold server.AddResourceTemplate. by rewrite <- app_assoc.
Qed.

(** C1 (as the code has it).  On a read-only toolset [AddWriteTools]
    changes nothing, and whatever is done to the toolset afterwards it
    stays read-only with the write tools it had; in particular they stay
    empty if they were empty.  Write tools added before [SetReadOnly]
    remain stored. *)
Theorem readOnly_keeps_writeTools (ts : Toolset.t) (tools : list server.ServerTool)
    (os : list Toolset.op) :
  Toolset.readOnly ts = true →
  Toolset.AddWriteTools tools ts = ts
  ∧ Toolset.readOnly (Toolset.run os ts) = true
  ∧ Toolset.writeTools (Toolset.run os ts) = Toolset.writeTools ts
  ∧ (Toolset.writeTools ts = [] → Toolset.writeTools (Toolset.run os ts) = []).
Proof.
  intros Hro. destruct (run_readOnly os ts Hro) as [Hro' Hw].
  split; [by apply AddWriteTools_readOnly|].
  split; [done|]. split; [done|]. by rewrite Hw.
Qed.

(** C2.  [GetActiveTools] is empty on a toolset that is not enabled,
    whatever [readOnly] is; on an enabled one it is the read tools when
    the toolset is read-only, and the read tools followed by the write
    tools otherwise. *)
Theorem GetActiveTools_cases (ts : Toolset.t) :
  (Toolset.Enabled ts = false → Toolset.GetActiveTools ts = [])
  ∧ (Toolset.Enabled ts = true → Toolset.readOnly ts = true →
     Toolset.GetActiveTools ts = Toolset.readTools ts)
  ∧ (Toolset.Enabled ts = true → Toolset.readOnly ts = false →
     Toolset.GetActiveTools ts = Toolset.readTools ts ++ Toolset.writeTools ts).
Proof.
  unfold Toolset.GetActiveTools.
  split; [by intros ->|]. split; by intros -> ->.
Qed.

(** C9.  [RegisterTools] on a toolset that is not enabled leaves the
    host server as it is; on an enabled one it appends one [AddTool]
    call per read tool in order, then (unless the toolset is read-only)
    one per write tool in order, then one [AddResourceTemplate] call per
    resource template in order, read-only or not. *)
Theorem RegisterTools_calls (ts : Toolset.t) (s : server.MCPServer) :
  Toolset.RegisterTools ts s =
    s ++ (if Toolset.Enabled ts then
            tool_calls (Toolset.readTools ts)
            ++ (if Toolset.readOnly ts then [] else tool_calls (Toolset.writeTools ts))
            ++ template_calls (Toolset.resourceTemplates ts)
          else []).
Proof.
  unfold Toolset.RegisterTools.
  destruct (Toolset.Enabled ts); simpl; [|by rewrite app_nil_r].
  rewrite fold_AddResourceTemplate.
  destruct (Toolset.readOnly ts); simpl.
  - by rewrite fold_AddTool, <- app_assoc.
  - by rewrite !fold_AddTool, <- !app_assoc.
Qed.

End ToolsetFacts.
End ToolsetFacts.

(** ** Properties of [ToolsetGroup] *)
Module GroupFacts.
Section GroupFacts.
Context `{External}.
Import toolsets.

Lemma set_Toolsets_id (tg : ToolsetGroup.t) f :
  f (ToolsetGroup.Toolsets tg) = ToolsetGroup.Toolsets tg →
  ToolsetGroup.set_Toolsets f tg = tg.
Proof. destruct tg; unfold ToolsetGroup.set_Toolsets; simpl. by intros ->. Qed.

Lemma set_group_id (σ : state) f : f (group σ) = group σ → set_group f σ = σ.
Proof. destruct σ; unfold set_group; simpl. by intros ->. Qed.

(** *** AddToolset *)

Lemma AddToolset_group ts σ :
  group (AddToolset ts σ).2 =
    ToolsetGroup.set_Toolsets (λ m, <[Toolset.Name (store σ ts) := ts]> m) (group σ).
Proof.
  unfold AddToolset, mbind, M_bind, gets, deref, on, modify, mret, M_ret; simpl.
  destruct (ToolsetGroup.readOnly (group σ)); simpl; [|done].
  by rewrite fn_lookup_insert.
Qed.

Lemma AddToolset_store ts σ :
  store (AddToolset ts σ).2 =
    if ToolsetGroup.readOnly (group σ)
    then <[ts := Toolset.SetReadOnly (store σ ts)]> (store σ)
    else store σ.
Proof.
  unfold AddToolset, mbind, M_bind, gets, deref, on, modify, mret, M_ret; simpl.
  by destruct (ToolsetGroup.readOnly (group σ)).
Qed.

Lemma AddToolset_Name ts σ l :
  Toolset.Name (store (AddToolset ts σ).2 l) = Toolset.Name (store σ l).
Proof.
  rewrite AddToolset_store. destruct (ToolsetGroup.readOnly (group σ)); [|done].
  destruct (decide (ts = l)) as [->|Hne].
  - by rewrite fn_lookup_insert.
  - by rewrite fn_lookup_insert_ne.
Qed.

Lemma AddToolsets_cons ts tss σ :
  (AddToolsets (ts :: tss) σ).2 = (AddToolsets tss (AddToolset ts σ).2).2.
Proof.
  simpl. unfold mbind, M_bind. by destruct (AddToolset ts σ) as [[] σ'].
Qed.

(** The keys after a run of [AddToolset] calls: those present before,
    and the names of the toolsets added. *)
Lemma AddToolsets_keys tss : ∀ σ k,
  is_Some (ToolsetGroup.Toolsets (group (AddToolsets tss σ).2) !! k)
  ↔ is_Some (ToolsetGroup.Toolsets (group σ) !! k)
    ∨ ∃ ts, ts ∈ tss ∧ Toolset.Name (store σ ts) = k.
Proof.
  induction tss as [|ts tss IH]; intros σ k.
  - simpl. split; [by left|]. intros [?|(ts & Hin & _)]; [done|].
    by apply elem_of_nil in Hin.
  - rewrite AddToolsets_cons, IH, AddToolset_group. simpl.
    rewrite lookup_insert_is_Some.
    setoid_rewrite AddToolset_Name. setoid_rewrite elem_of_cons.
    split.
    + intros [[Hk|[_ Hk]]|(l & Hin & Hl)]; [right|by left|right].
      * exists ts. by split; [left|].
      * exists l. by split; [right|].
    + intros [Hk|(l & [->|Hin] & Hl)].
      * destruct (decide (Toolset.Name (store σ ts) = k)); [by left; left|].
        by left; right.
      * by left; left.
      * right. by exists l.
Qed.

(** *** EnableToolset *)

Lemma EnableToolset_all σ :
  EnableToolset "all" σ = (None, set_group (ToolsetGroup.set_everythingOn true) σ).
Proof. reflexivity. Qed.

Lemma EnableToolset_absent name σ :
  name ≠ "all" → ToolsetGroup.Toolsets (group σ) !! name = None →
  EnableToolset name σ = (Some ("toolset " +:+ name +:+ " does not exist"), σ).
Proof.
  intros Hname Hnone. unfold EnableToolset. rewrite decide_False by done.
  unfold mbind, M_bind, gets, mret, M_ret; simpl. by rewrite Hnone.
Qed.

Lemma EnableToolset_present name ts σ :
  name ≠ "all" → ToolsetGroup.Toolsets (group σ) !! name = Some ts →
  EnableToolset name σ =
    (None, set_store (λ st, <[ts := Toolset.set_Enabled true (st ts)]> st) σ).
Proof.
  intros Hname Hsome. unfold EnableToolset. rewrite decide_False by done.
  unfold mbind, M_bind, gets, on, modify, mret, M_ret; simpl. rewrite Hsome.
  f_equal. apply set_group_id, set_Toolsets_id. simpl. by apply insert_id.
Qed.

(** What [EnableToolset] never touches. *)
Lemma EnableToolset_frame name σ :
  ToolsetGroup.Toolsets (group (EnableToolset name σ).2) = ToolsetGroup.Toolsets (group σ)
  ∧ ToolsetGroup.readOnly (group (EnableToolset name σ).2) = ToolsetGroup.readOnly (group σ)
  ∧ (ToolsetGroup.everythingOn (group σ) = true →
     ToolsetGroup.everythingOn (group (EnableToolset name σ).2) = true)
  ∧ ∀ l, Toolset.Name (store (EnableToolset name σ).2 l) = Toolset.Name (store σ l).
Proof.
  destruct (decide (name = "all")) as [->|Hname]; [by rewrite EnableToolset_all|].
  destruct (ToolsetGroup.Toolsets (group σ) !! name) as [ts|] eqn:Hl.
  - rewrite (EnableToolset_present _ ts) by done. simpl.
    repeat split; try done. intros l.
    destruct (decide (ts = l)) as [->|Hne].
    + by rewrite fn_lookup_insert.
    + by rewrite fn_lookup_insert_ne.
  - by rewrite EnableToolset_absent.
Qed.

(** *** IsEnabled *)

Lemma IsEnabled_state name σ : (IsEnabled name σ).2 = σ.
Proof.
  unfold IsEnabled, mbind, M_bind, gets, deref, mret, M_ret; simpl.
  destruct (ToolsetGroup.everythingOn (group σ)); [done|].
  by destruct (ToolsetGroup.Toolsets (group σ) !! name).
Qed.

Lemma IsEnabled_value name σ :
  (IsEnabled name σ).1 =
    if ToolsetGroup.everythingOn (group σ) then true
    else match ToolsetGroup.Toolsets (group σ) !! name with
         | Some ts => Toolset.Enabled (store σ ts)
         | None => false
         end.
Proof.
  unfold IsEnabled, mbind, M_bind, gets, deref, mret, M_ret; simpl.
  destruct (ToolsetGroup.everythingOn (group σ)); [done|].
  by destruct (ToolsetGroup.Toolsets (group σ) !! name).
Qed.

(** *** Runs of calls *)

Lemma exec_everythingOn c σ :
  ToolsetGroup.everythingOn (group σ) = true →
  ToolsetGroup.everythingOn (group (exec c σ).2) = true.
Proof.
  intros Hon. destruct c as [name d|ts o|ts|name]; simpl.
  - done.
  - done.
  - by rewrite AddToolset_group.
  - unfold mbind, M_bind.
    pose proof (EnableToolset_frame name σ) as (_ & _ & Hkeep & _).
    destruct (EnableToolset name σ) as [e σ']. by apply Hkeep.
Qed.

Lemma execs_everythingOn cs : ∀ σ,
  ToolsetGroup.everythingOn (group σ) = true →
  ToolsetGroup.everythingOn (group (execs cs σ).2) = true.
Proof.
  induction cs as [|c cs IH]; intros σ Hon; [done|].
  simpl. unfold mbind, M_bind.
  pose proof (exec_everythingOn c σ Hon) as Hon'.
  destruct (exec c σ) as [[] σ']. by apply IH.
Qed.

(** C4.  For a name other than ["all"], [EnableToolset] returns an
    error exactly when the name is not a key of the group; the state is
    then what it was.  When the name is a key the call returns no error
    and sets [Enabled] on the toolset it maps to (and changes nothing
    else). *)
Theorem EnableToolset_NotFound_iff (name : string) (σ : state) :
  name ≠ "all" →
  (is_Some (EnableToolset name σ).1 ↔ ToolsetGroup.Toolsets (group σ) !! name = None)
  ∧ (ToolsetGroup.Toolsets (group σ) !! name = None →
     (EnableToolset name σ).1 = Some ("toolset " +:+ name +:+ " does not exist")
     ∧ (EnableToolset name σ).2 = σ)
  ∧ (∀ ts, ToolsetGroup.Toolsets (group σ) !! name = Some ts →
     (EnableToolset name σ).1 = None
     ∧ Toolset.Enabled (store (EnableToolset name σ).2 ts) = true
     ∧ (EnableToolset name σ).2
       = set_store (λ st, <[ts := Toolset.set_Enabled true (st ts)]> st) σ).
Proof.
  intros Hname. split; [|split].
  - destruct (ToolsetGroup.Toolsets (group σ) !! name) as [ts|] eqn:Hl.
    + rewrite (EnableToolset_present _ ts) by done. simpl.
      split; [by intros [? ?]|done].
    + rewrite EnableToolset_absent by done. simpl. by split; [|eexists].
  - intros Hl. by rewrite EnableToolset_absent.
  - intros ts Hl. rewrite (EnableToolset_present _ ts) by done. simpl.
    by rewrite fn_lookup_insert.
Qed.

(** C5.  [IsEnabled] changes nothing.  It answers true for every name
    when [everythingOn] is set, hence for every name, known or not,
    after [EnableToolset "all"] and any calls that follow it, such as
    adding further toolsets.  When [everythingOn] is not set it answers
    with the [Enabled] flag of the toolset the name maps to, and false
    for a name that is not a key. *)
Theorem IsEnabled_cases (name : string) (σ : state) (cs : list call) :
  (IsEnabled name σ).2 = σ
  ∧ (ToolsetGroup.everythingOn (group σ) = true → (IsEnabled name σ).1 = true)
  ∧ (IsEnabled name (execs cs (EnableToolset "all" σ).2).2).1 = true
  ∧ (ToolsetGroup.everythingOn (group σ) = false →
     ∀ ts, ToolsetGroup.Toolsets (group σ) !! name = Some ts →
           (IsEnabled name σ).1 = Toolset.Enabled (store σ ts))
  ∧ (ToolsetGroup.everythingOn (group σ) = false →
     ToolsetGroup.Toolsets (group σ) !! name = None →
     (IsEnabled name σ).1 = false).
Proof.
  split; [apply IsEnabled_state|]. rewrite !IsEnabled_value.
  split; [by intros ->|]. split.
  - rewrite execs_everythingOn; [done|]. by rewrite EnableToolset_all.
  - split; [by intros -> ts ->|by intros -> ->].
Qed.

(** C7 (as the code has it).  [AddToolset] does not look at the name:
    the toolset is stored under its [Name], whatever that is.  From a
    group without the key ["all"], a run of [AddToolset] calls leaves
    the key ["all"] absent exactly when none of the toolsets added is
    named ["all"]. *)
Theorem AddToolset_stores_any_name (tss : list loc) (σ : state) :
  ToolsetGroup.Toolsets (group σ) !! "all" = None →
  (∀ ts, ToolsetGroup.Toolsets (group (AddToolset ts σ).2) !! Toolset.Name (store σ ts)
         = Some ts)
  ∧ (ToolsetGroup.Toolsets (group (AddToolsets tss σ).2) !! "all" = None
     ↔ ∀ ts, ts ∈ tss → Toolset.Name (store σ ts) ≠ "all").
Proof.
  intros Hnone. split.
  - intros ts. rewrite AddToolset_group. simpl. by rewrite lookup_insert_eq.
  - rewrite eq_None_not_Some, AddToolsets_keys. split.
    + intros Hno ts Hin Hall. apply Hno. right. by exists ts.
    + intros Hno [Hk|(ts & Hin & Hall)].
      * rewrite Hnone in Hk. by destruct Hk.
      * by apply (Hno ts).
Qed.

End GroupFacts.
End GroupFacts.

(** ** Properties of the dynamic tool handlers *)
Module DynamicFacts.
Section DynamicFacts.
Context `{External}.
Import toolsets Logic.

Lemma Marshal_empty {V} (value : V → string) :
  json.Marshal value (∅ : gmap string V) = ("{}", None).
Proof. unfold json.Marshal, json.members. by rewrite map_to_list_empty. Qed.

(** *** The enable handler, case by case *)

Lemma EnableToolset_missing request err σ :
  requiredParam request "toolset" = inr err →
  github.EnableToolset request σ = ((Some (mcp.NewToolResultError err), None), σ).
Proof. unfold github.EnableToolset. by intros ->. Qed.

Lemma EnableToolset_unknown request name σ :
  requiredParam request "toolset" = inl name →
  ToolsetGroup.Toolsets (group σ) !! name = None →
  github.EnableToolset request σ =
    ((Some (mcp.NewToolResultError ("Toolset " +:+ name +:+ " not found")), None), σ).
Proof.
  unfold github.EnableToolset. intros -> Hl.
  unfold mbind, M_bind, gets, mret, M_ret; simpl. by rewrite Hl.
Qed.

Lemma EnableToolset_already request name ts σ :
  requiredParam request "toolset" = inl name →
  ToolsetGroup.Toolsets (group σ) !! name = Some ts →
  Toolset.Enabled (store σ ts) = true →
  github.EnableToolset request σ =
    ((Some (mcp.NewToolResultText ("Toolset " +:+ name +:+ " is already enabled")),
      None), σ).
Proof.
  unfold github.EnableToolset. intros -> Hl Hen.
  unfold mbind, M_bind, gets, deref, mret, M_ret; simpl. by rewrite Hl, Hen.
Qed.

Lemma EnableToolset_fresh request name ts σ :
  requiredParam request "toolset" = inl name →
  ToolsetGroup.Toolsets (group σ) !! name = Some ts →
  Toolset.Enabled (store σ ts) = false →
  github.EnableToolset request σ =
    ((Some (mcp.NewToolResultText ("Toolset " +:+ name +:+ " enabled")), None),
     enabled_at ts σ).
Proof.
  unfold github.EnableToolset. intros -> Hl Hen.
  unfold mbind, M_bind, gets, deref, on, modify, mret, M_ret; simpl.
  rewrite Hl, Hen. unfold enabled_at. simpl. by rewrite fn_lookup_insert.
Qed.

(** The handler leaves the group and the allocation pointer alone and
    writes to no toolset but, at most, the one the argument names. *)
Lemma EnableToolset_handler_frame request σ :
  group (github.EnableToolset request σ).2 = group σ
  ∧ next (github.EnableToolset request σ).2 = next σ
  ∧ ∀ l, store (github.EnableToolset request σ).2 l = store σ l
         ∨ (∃ name, requiredParam request "toolset" = inl name
                    ∧ ToolsetGroup.Toolsets (group σ) !! name = Some l)
           ∧ store (github.EnableToolset request σ).2 l
             = Toolset.set_Enabled true (store σ l).
Proof.
  destruct (requiredParam request "toolset") as [name|err] eqn:Hreq.
  2: { rewrite (EnableToolset_missing _ err) by done. by repeat split; try left. }
  destruct (ToolsetGroup.Toolsets (group σ) !! name) as [ts|] eqn:Hl.
  2: { rewrite (EnableToolset_unknown _ name) by done. by repeat split; try left. }
  destruct (Toolset.Enabled (store σ ts)) eqn:Hen.
  { rewrite (EnableToolset_already _ name ts) by done. by repeat split; try left. }
  rewrite (EnableToolset_fresh _ name ts) by done. simpl.
  split; [done|]. split; [done|]. intros l.
  destruct (decide (ts = l)) as [->|Hne].
  - right. rewrite fn_lookup_insert. split; [by exists name|done].
  - left. by rewrite fn_lookup_insert_ne.
Qed.

(** *** The loop of the list handler *)

Lemma range_features_run names : ∀ featureMap σ,
  github.range_features names featureMap σ =
    (fold_left (λ m name, <[name := (IsEnabled name σ).1]> m) names featureMap, σ).
Proof.
  induction names as [|name names IH]; intros featureMap σ; [done|].
  simpl. unfold mbind, M_bind.
  pose proof (GroupFacts.IsEnabled_state name σ) as Hst.
  destruct (IsEnabled name σ) as [b σ']. simpl in *. subst σ'. apply IH.
Qed.

Lemma fold_features_lookup (f : string → bool) names : ∀ (m : gmap string bool) k,
  fold_left (λ m name, <[name := f name]> m) names m !! k =
    if decide (k ∈ names) then Some (f k) else m !! k.
Proof.
  induction names as [|name names IH]; intros m k; cbn [fold_left].
  - case_decide as Hin; [|done]. by apply elem_of_nil in Hin.
  - rewrite IH. destruct (decide (k ∈ names)) as [Hin|Hnin].
    + rewrite decide_True; [done|]. by right.
    + destruct (decide (name = k)) as [->|Hne].
      * rewrite lookup_insert_eq, decide_True; [done|]. by left.
      * rewrite lookup_insert_ne by done. rewrite decide_False; [done|].
        intros [->|?]%elem_of_cons; done.
Qed.

Lemma elem_of_keys {V} (m : gmap string V) k :
  k ∈ (map_to_list m).*1 ↔ is_Some (m !! k).
Proof.
  rewrite list_elem_of_fmap. split.
  - intros ([k' v] & -> & Hin). apply elem_of_map_to_list in Hin. by exists v.
  - intros [v Hv]. exists (k, v). split; [done|]. by apply elem_of_map_to_list.
Qed.

(** The order in which the loop meets the keys does not matter. *)
Lemma range_features_order names names' featureMap σ :
  names ≡ₚ names' →
  github.range_features names featureMap σ = github.range_features names' featureMap σ.
Proof.
  intros Hp. rewrite !range_features_run. f_equal. apply map_eq. intros k.
  rewrite !(fold_features_lookup (λ name, (IsEnabled name σ).1)).
  destruct (decide (k ∈ names)) as [Hin|Hnin].
  - rewrite decide_True; [done|]. by rewrite <- Hp.
  - rewrite decide_False; [done|]. by rewrite <- Hp.
Qed.

(** *** The loop of the tools handler *)

Lemma range_tools_lookup active : ∀ (tools : gmap string string) k,
  github.range_tools active tools !! k =
    match list.last
            (filter (λ st, mcp.Name (server.Tool st) = k) active) with
    | Some st => Some (mcp.Description (server.Tool st))
    | None => tools !! k
    end.
Proof.
  induction active as [|st active IH]; intros tools k; [done|].
  change (github.range_tools (st :: active) tools) with
    (github.range_tools active
       (<[mcp.Name (server.Tool st) := mcp.Description (server.Tool st)]> tools)).
  rewrite IH, filter_cons.
  destruct (decide (mcp.Name (server.Tool st) = k)) as [Hk|Hk].
  - rewrite last_cons.
    destruct (list.last (filter _ active)); [done|].
    by rewrite Hk, lookup_insert_eq.
  - destruct (list.last (filter _ active)); [done|].
    by rewrite lookup_insert_ne.
Qed.

(** *** The group that [InitToolsets] builds *)

Lemma triple_bind {A B} P (c : M A) Q (f : A → M B) R :
  triple P c Q → (∀ a, triple (Q a) (f a) R) → triple P (c ≫= f) R.
Proof.
  intros Hc Hf σ HP. unfold mbind, M_bind.
  specialize (Hc σ HP). destruct (c σ) as [a σ']. by apply Hf.
Qed.

Lemma triple_pure {A} (φ : Prop) P (c : M A) Q :
  (φ → triple P c Q) → triple (λ σ, φ ∧ P σ) c Q.
Proof. intros Hc σ [Hφ HP]. by apply Hc. Qed.

Lemma triple_NewToolset n0 names keys name description :
  triple (built n0 names keys) (NewToolset name description)
    (λ ts σ, ts = n0 + length names ∧ built n0 (names ++ [name]) keys σ).
Proof.
  intros σ (Hnext & Hnames & Hkeys).
  unfold NewToolset, mbind, M_bind, gets, modify, mret, M_ret; simpl.
  split; [done|]. split; [|split; [|done]]; simpl.
  - rewrite length_app. simpl. lia.
  - intros i k Hi. rewrite Hnext.
    destruct (decide (i = length names)) as [->|Hne].
    + rewrite fn_lookup_insert. rewrite list_lookup_middle in Hi by done.
      by injection Hi.
    + rewrite fn_lookup_insert_ne by lia. apply Hnames.
      rewrite lookup_app_l in Hi; [done|].
      apply lookup_lt_Some in Hi. rewrite length_app in Hi. simpl in Hi. lia.
Qed.

Lemma triple_on n0 names keys ts f :
  (∀ t, Toolset.Name (f t) = Toolset.Name t) →
  triple (built n0 names keys) (on ts f) (λ _, built n0 names keys).
Proof.
  intros Hf σ (Hnext & Hnames & Hkeys). split; [done|]. split; [|done].
  intros i k Hi. simpl. destruct (decide (ts = n0 + i)) as [->|Hne].
  - rewrite fn_lookup_insert, Hf. by apply Hnames.
  - rewrite fn_lookup_insert_ne by done. by apply Hnames.
Qed.

Lemma triple_AddToolset n0 names keys i k :
  names !! i = Some k →
  triple (built n0 names keys) (AddToolset (n0 + i))
    (λ _, built n0 names (<[k := n0 + i]> keys)).
Proof.
  intros Hi σ (Hnext & Hnames & Hkeys). split; [|split].
  - unfold AddToolset, mbind, M_bind, gets, deref, on, modify, mret, M_ret; simpl.
    by destruct (ToolsetGroup.readOnly (group σ)).
  - intros j k' Hj. rewrite GroupFacts.AddToolset_Name. by apply Hnames.
  - rewrite GroupFacts.AddToolset_group. simpl. by rewrite (Hnames i k Hi), Hkeys.
Qed.

Lemma EnableToolsets_Toolsets names : ∀ σ,
  ToolsetGroup.Toolsets (group (EnableToolsets names σ).2)
  = ToolsetGroup.Toolsets (group σ).
Proof.
  induction names as [|name names IH]; intros σ; [done|].
  simpl. unfold mbind, M_bind.
  pose proof (GroupFacts.EnableToolset_frame name σ) as (Hk & _).
  destruct (EnableToolset name σ) as [[e|] σ']; simpl in *; [done|].
  by rewrite IH.
Qed.

Local Ltac new_toolset :=
  eapply triple_bind;
  [ apply triple_NewToolset
  | intros ?ts; apply triple_pure; intros ->; simpl length ].

Local Ltac method :=
  eapply triple_bind;
  [ apply triple_on; intros t; unfold Toolset.AddWriteTools;
    by destruct t as [? ? ? []]
  | intros [] ].

Local Ltac add_toolset :=
  eapply triple_bind; [ eapply triple_AddToolset; reflexivity | intros [] ].

Lemma InitToolsets_Toolsets c passedToolsets readOnly σ :
  ToolsetGroup.Toolsets (group (github.InitToolsets c passedToolsets readOnly σ).2)
  = init_keys (next σ).
Proof.
  revert σ. cut (∀ n0,
    triple (λ σ, next σ = n0) (github.InitToolsets c passedToolsets readOnly)
      (λ _ σ, ToolsetGroup.Toolsets (group σ) = init_keys n0)).
  { intros Ht σ. by apply Ht. }
  intros n0. unfold github.InitToolsets.
  eapply (triple_bind _ _ (λ _, built n0 [] ∅)).
  { intros σ <-. repeat split; simpl; [lia|]. intros i k Hi. done. }
  intros [].
  new_toolset. method.
  new_toolset. method. method. method.
  new_toolset. method. method.
  new_toolset. method.
  new_toolset. method. method.
  new_toolset. method.
  new_toolset.
  do 7 add_toolset.
  new_toolset. method. add_toolset.
  intros σ (_ & _ & Hkeys). by rewrite EnableToolsets_Toolsets.
Qed.

Lemma init_keys_all n0 : init_keys n0 !! "all" = None.
Proof. unfold init_keys. by rewrite !lookup_insert_ne. Qed.

(** C3.  For a known toolset name: when the toolset is enabled the
    enable handler answers "Toolset <name> is already enabled" and the
    state, host server included, is what it was.  When it is not, two
    calls in a row answer "Toolset <name> enabled" and then "Toolset
    <name> is already enabled"; the second call changes nothing, and
    over both calls the host server receives one call, an [AddTools]
    with the active tools of the toolset, so every active tool is
    submitted once and the names submitted repeat only where the
    toolset itself lists a name twice. *)
Theorem EnableToolset_handler_twice (request : CallToolRequest) (name : string)
    (ts : loc) (σ : state) :
  requiredParam request "toolset" = inl name →
  ToolsetGroup.Toolsets (group σ) !! name = Some ts →
  (Toolset.Enabled (store σ ts) = true →
   github.EnableToolset request σ =
     ((Some (mcp.NewToolResultText ("Toolset " +:+ name +:+ " is already enabled")),
       None), σ))
  ∧ (Toolset.Enabled (store σ ts) = false →
     let first := github.EnableToolset request σ in
     let second := github.EnableToolset request first.2 in
     first.1 = (Some (mcp.NewToolResultText ("Toolset " +:+ name +:+ " enabled")), None)
     ∧ second.1 =
         (Some (mcp.NewToolResultText ("Toolset " +:+ name +:+ " is already enabled")),
          None)
     ∧ second.2 = first.2
     ∧ Toolset.Enabled (store second.2 ts) = true
     ∧ host second.2 =
         host σ ++ [server.CallAddTools (Toolset.GetActiveTools (store second.2 ts))]
     ∧ concat (map server.submitted (drop (length (host σ)) (host second.2)))
       = Toolset.GetActiveTools (store second.2 ts)
     ∧ (NoDup (map (λ st, mcp.Name (server.Tool st))
                 (Toolset.GetActiveTools (store second.2 ts))) →
        NoDup (map (λ st, mcp.Name (server.Tool st))
                 (concat (map server.submitted
                            (drop (length (host σ)) (host second.2))))))).
Proof.
  intros Hreq Hl. split; [by apply EnableToolset_already|].
  intros Hen. cbv zeta.
  rewrite (EnableToolset_fresh request name ts σ) by done. simpl.
  assert (Toolset.Enabled (store (enabled_at ts σ) ts) = true) as Hen'.
  { simpl. by rewrite fn_lookup_insert. }
  rewrite (EnableToolset_already request name ts (enabled_at ts σ)) by done.
  simpl. rewrite fn_lookup_insert. unfold server.AddTools.
  rewrite drop_app_length. simpl. rewrite app_nil_r.
  by repeat split.
Qed.

(** C6.  For the tools handler: a name that is not a key of the group
    gives the error result "Toolset <name> not found", with no handler
    error and the state unchanged.  A known name gives a text result
    that marshals the map from the name of each active tool to its
    description (the last one, should a name occur twice); for a
    toolset that is not enabled this map is empty and the text is the
    empty object. *)
Theorem GetToolsetsTools_result (request : CallToolRequest) (name : string)
    (σ : state) :
  requiredParam request "toolset" = inl name →
  (ToolsetGroup.Toolsets (group σ) !! name = None →
   github.GetToolsetsTools request σ =
     ((Some (mcp.NewToolResultError ("Toolset " +:+ name +:+ " not found")), None), σ))
  ∧ (∀ ts, ToolsetGroup.Toolsets (group σ) !! name = Some ts →
     ∃ tools : gmap string string,
       github.GetToolsetsTools request σ =
         ((Some (mcp.NewToolResultText (json.Marshal json_quote tools).1), None), σ)
       ∧ (∀ k, tools !! k =
               (λ st, mcp.Description (server.Tool st)) <$>
                 list.last (filter (λ st, mcp.Name (server.Tool st) = k)
                              (Toolset.GetActiveTools (store σ ts))))
       ∧ (Toolset.Enabled (store σ ts) = false →
          tools = ∅ ∧ (json.Marshal json_quote tools).1 = "{}")).
Proof.
  intros Hreq. unfold github.GetToolsetsTools. rewrite Hreq.
  unfold mbind, M_bind, gets, deref, mret, M_ret; simpl. split.
  - by intros ->.
  - intros ts ->.
    exists (github.range_tools (Toolset.GetActiveTools (store σ ts)) ∅).
    split; [done|]. split.
    + intros k. rewrite range_tools_lookup.
      by destruct (list.last _).
    + intros Hen. unfold Toolset.GetActiveTools. rewrite Hen.
      split; [done|]. change (github.range_tools [] ∅) with (∅ : gmap string string).
      unfold json.members. by rewrite map_to_list_empty.
Qed.

(** C8.  The list handler returns a text result, never an error result
    or a handler error, and leaves the state as it is.  The text
    marshals a map whose keys are the keys of the group, each mapped to
    what [IsEnabled] answers for it; for a group without toolsets the
    text is the empty object. *)
Theorem ListAvailableToolsets_result (request : CallToolRequest) (σ : state) :
  ∃ featureMap : gmap string bool,
    github.ListAvailableToolsets request σ =
      ((Some (mcp.NewToolResultText (json.Marshal json.bool_text featureMap).1), None), σ)
    ∧ (∀ name, featureMap !! name =
               (λ _, (IsEnabled name σ).1) <$> ToolsetGroup.Toolsets (group σ) !! name)
    ∧ (ToolsetGroup.Toolsets (group σ) = ∅ →
       (json.Marshal json.bool_text featureMap).1 = "{}").
Proof.
  exists (fold_left (λ m name, <[name := (IsEnabled name σ).1]> m)
            (map_to_list (ToolsetGroup.Toolsets (group σ))).*1
            (∅ : gmap string bool)).
  split; [|split].
  - unfold github.ListAvailableToolsets.
    unfold mbind at 1, M_bind at 1, gets at 1. unfold mbind, M_bind.
    by rewrite range_features_run.
  - intros name.
    rewrite (fold_features_lookup (λ name, (IsEnabled name σ).1)).
    case_decide as Hin; rewrite elem_of_keys in Hin.
    + by destruct Hin as [l ->].
    + apply eq_None_not_Some in Hin. by rewrite Hin, lookup_empty.
  - intros Hempty. rewrite Hempty, map_to_list_empty. simpl.
    unfold json.members. by rewrite map_to_list_empty.
Qed.

(** C10.  The enable handler leaves the group as it is: the keys, the
    read-only policy and [everythingOn], which it never sets.  In the
    store it writes at most to the toolset that its argument names, and
    there only sets [Enabled].  It has no case for ["all"]: on the group
    that [InitToolsets] builds, which has no such key, a request for
    ["all"] gets the error result "Toolset all not found" and changes
    nothing. *)
Theorem EnableToolset_handler_ignores_all (request : CallToolRequest) (σ : state)
    (c : github.Catalog) (passedToolsets : list string) (readOnly : bool) :
  group (github.EnableToolset request σ).2 = group σ
  ∧ (∀ l, store (github.EnableToolset request σ).2 l = store σ l
          ∨ (∃ name, requiredParam request "toolset" = inl name
                     ∧ ToolsetGroup.Toolsets (group σ) !! name = Some l)
            ∧ store (github.EnableToolset request σ).2 l
              = Toolset.set_Enabled true (store σ l))
  ∧ ToolsetGroup.Toolsets
      (group (github.InitToolsets c passedToolsets readOnly σ).2) !! "all" = None
  ∧ (requiredParam request "toolset" = inl "all" →
     github.EnableToolset request (github.InitToolsets c passedToolsets readOnly σ).2 =
       ((Some (mcp.NewToolResultError "Toolset all not found"), None),
        (github.InitToolsets c passedToolsets readOnly σ).2)).
Proof.
  destruct (EnableToolset_handler_frame request σ) as (Hg & _ & Hst).
  split; [done|]. split; [done|].
  assert (ToolsetGroup.Toolsets
            (group (github.InitToolsets c passedToolsets readOnly σ).2) !! "all" = None)
    as Hall.
  { rewrite InitToolsets_Toolsets. apply init_keys_all. }
  split; [done|]. intros Hreq.
  by rewrite (EnableToolset_unknown request "all").
Qed.

End DynamicFacts.
End DynamicFacts.

(** ** Further properties of [Toolset] *)
Module ToolsetMore.
Section ToolsetMore.
Context `{External}.
Import toolsets Logic.

Lemma RegisterTools_appends ts s :
  Toolset.RegisterTools ts s = s ++ toolset_calls ts.
Proof.
  unfold Toolset.RegisterTools, toolset_calls.
  destruct (Toolset.Enabled ts); simpl; [|by rewrite app_nil_r].
  rewrite ToolsetFacts.fold_AddResourceTemplate.
  destruct (Toolset.readOnly ts); simpl.
  - by rewrite ToolsetFacts.fold_AddTool, <- app_assoc.
  - by rewrite !ToolsetFacts.fold_AddTool, <- !app_assoc.
Qed.

Lemma submitted_tool_calls tools :
  concat (map server.submitted (tool_calls tools)) = tools.
Proof.
  induction tools as [|[tool h] tools IH]; [done|].
  simpl. by rewrite IH.
Qed.

Lemma submitted_template_calls resources :
  concat (map server.submitted (template_calls resources)) = [].
Proof. induction resources as [|r resources IH]; [done|]. simpl. by rewrite IH. Qed.

Lemma submitted_toolset_calls ts :
  concat (map server.submitted (toolset_calls ts)) = Toolset.GetActiveTools ts.
Proof.
  unfold toolset_calls, Toolset.GetActiveTools.
  destruct (Toolset.Enabled ts); [|done].
  rewrite !map_app, !concat_app, submitted_tool_calls, submitted_template_calls.
  destruct (Toolset.readOnly ts); simpl.
  - by rewrite app_nil_r.
  - by rewrite submitted_tool_calls, app_nil_r.
Qed.

(** X1.  [GetAvailableTools] does not look at [Enabled]; on an enabled
    toolset [GetActiveTools] returns the same tools, and on any toolset
    every active tool is an available one. *)
Theorem GetAvailableTools_ignores_Enabled (ts : Toolset.t) (v : bool) :
  Toolset.GetAvailableTools (Toolset.set_Enabled v ts) = Toolset.GetAvailableTools ts
  ∧ Toolset.GetActiveTools (Toolset.set_Enabled true ts) = Toolset.GetAvailableTools ts
  ∧ ∀ st, st ∈ Toolset.GetActiveTools ts → st ∈ Toolset.GetAvailableTools ts.
Proof.
  split; [done|]. split; [done|].
  unfold Toolset.GetActiveTools, Toolset.GetAvailableTools. intros st.
  destruct (Toolset.Enabled ts); [done|]. intros Hin. by apply elem_of_nil in Hin.
Qed.

(** X2.  A run of operations on a toolset never changes its name or
    description and never drops a tool: the read tools and the resource
    templates are the old ones followed by everything added, in the order
    of the calls; the write tools are the old ones followed by what was
    added while the toolset was not read-only; and the toolset is
    read-only afterwards exactly when it was before or [SetReadOnly] was
    among the calls. *)
Theorem run_accumulates (os : list Toolset.op) (ts : Toolset.t) :
  Toolset.Name (Toolset.run os ts) = Toolset.Name ts
  ∧ Toolset.Description (Toolset.run os ts) = Toolset.Description ts
  ∧ Toolset.readTools (Toolset.run os ts) = Toolset.readTools ts ++ added_read os
  ∧ Toolset.resourceTemplates (Toolset.run os ts)
    = Toolset.resourceTemplates ts ++ added_resources os
  ∧ Toolset.writeTools (Toolset.run os ts)
    = Toolset.writeTools ts ++ (if Toolset.readOnly ts then [] else added_write os)
  ∧ Toolset.readOnly (Toolset.run os ts)
    = Toolset.readOnly ts || existsb is_SetReadOnly os.
Proof.
  revert ts. induction os as [|o os IH]; intros ts.
  - simpl. destruct (Toolset.readOnly ts); by rewrite !app_nil_r.
  - change (Toolset.run (o :: os) ts) with (Toolset.run os (Toolset.apply o ts)).
    destruct (IH (Toolset.apply o ts)) as (-> & -> & -> & -> & -> & ->).
    destruct o as [|tools|tools|resources|v]; simpl.
    + rewrite orb_true_r. destruct (Toolset.readOnly ts); by rewrite !app_nil_r.
    + unfold Toolset.AddWriteTools.
      destruct (Toolset.readOnly ts) eqn:Hro; simpl; rewrite ?Hro; [done|].
      by rewrite app_assoc.
    + by rewrite app_assoc.
    + by rewrite app_assoc.
    + done.
Qed.

(** X3.  The tools that [Toolset.RegisterTools] submits to the host
    server are the active tools of the toolset, in order; earlier
    registrations stay in place. *)
Theorem RegisterTools_submits_active (ts : Toolset.t) (s : server.MCPServer) :
  take (length s) (Toolset.RegisterTools ts s) = s
  ∧ concat (map server.submitted (drop (length s) (Toolset.RegisterTools ts s)))
    = Toolset.GetActiveTools ts.
Proof.
  rewrite RegisterTools_appends, take_app_length, drop_app_length.
  split; [done|]. apply submitted_toolset_calls.
Qed.

End ToolsetMore.
End ToolsetMore.

(** ** Further properties of [ToolsetGroup] *)
Module GroupMore.
Section GroupMore.
Context `{External}.
Import toolsets Logic.

(** *** Nothing is turned off *)

Lemma later_refl σ : later σ σ.
Proof. by repeat split. Qed.

Lemma later_trans σ1 σ2 σ3 : later σ1 σ2 → later σ2 σ3 → later σ1 σ3.
Proof.
  intros (Hk & He & Hs) (Hk' & He' & Hs'). split; [|split].
  - by rewrite Hk'.
  - auto.
  - auto.
Qed.

Lemma EnableToolset_later name σ : later σ (EnableToolset name σ).2.
Proof.
  destruct (GroupFacts.EnableToolset_frame name σ) as (Hk & _ & He & _).
  split; [done|]. split; [done|]. intros l Hl.
  destruct (decide (name = "all")) as [->|Hname].
  { by rewrite GroupFacts.EnableToolset_all. }
  destruct (ToolsetGroup.Toolsets (group σ) !! name) as [ts|] eqn:Hlook.
  - rewrite (GroupFacts.EnableToolset_present _ ts) by done. simpl.
    destruct (decide (ts = l)) as [->|Hne].
    + by rewrite fn_lookup_insert.
    + by rewrite fn_lookup_insert_ne.
  - by rewrite GroupFacts.EnableToolset_absent.
Qed.

Lemma EnableToolsets_cons name names σ :
  EnableToolsets (name :: names) σ =
    match (EnableToolset name σ).1 with
    | Some e => (Some e, (EnableToolset name σ).2)
    | None => EnableToolsets names (EnableToolset name σ).2
    end.
Proof.
  simpl. unfold mbind, M_bind. by destruct (EnableToolset name σ) as [[e|] σ'].
Qed.

Lemma EnableToolsets_later names : ∀ σ, later σ (EnableToolsets names σ).2.
Proof.
  induction names as [|name names IH]; intros σ; [apply later_refl|].
  rewrite EnableToolsets_cons.
  pose proof (EnableToolset_later name σ) as Hl.
  destruct (EnableToolset name σ).1; [done|].
  eapply later_trans; [exact Hl|apply IH].
Qed.

Lemma IsEnabled_later name σ σ' :
  later σ σ' → (IsEnabled name σ).1 = true → (IsEnabled name σ').1 = true.
Proof.
  intros (Hk & He & Hs). rewrite !GroupFacts.IsEnabled_value, Hk.
  destruct (ToolsetGroup.everythingOn (group σ)); [by rewrite He|].
  destruct (ToolsetGroup.everythingOn (group σ')); [done|].
  destruct (ToolsetGroup.Toolsets (group σ) !! name); [apply Hs|done].
Qed.

Lemma accepted_later name σ σ' : later σ σ' → accepted σ name ↔ accepted σ' name.
Proof. intros (Hk & _). unfold accepted. by rewrite Hk. Qed.

(** *** One name *)

Lemma EnableToolset_error_iff name σ :
  (EnableToolset name σ).1 = None ↔ accepted σ name.
Proof.
  unfold accepted. destruct (decide (name = "all")) as [->|Hname].
  { rewrite GroupFacts.EnableToolset_all. split; [by left|done]. }
  destruct (ToolsetGroup.Toolsets (group σ) !! name) as [ts|] eqn:Hlook.
  - rewrite (GroupFacts.EnableToolset_present _ ts) by done.
    split; [by right|done].
  - rewrite GroupFacts.EnableToolset_absent by done. simpl.
    split; [done|]. by intros [?|[? ?]].
Qed.

Lemma EnableToolset_rejects name σ :
  ¬ accepted σ name →
  EnableToolset name σ = (Some ("toolset " +:+ name +:+ " does not exist"), σ).
Proof.
  intros Hno. apply GroupFacts.EnableToolset_absent.
  - intros ->. apply Hno. by left.
  - apply eq_None_not_Some. intros Hs. apply Hno. by right.
Qed.

Lemma EnableToolset_enables name σ :
  accepted σ name → (IsEnabled name (EnableToolset name σ).2).1 = true.
Proof.
  intros Hacc. rewrite GroupFacts.IsEnabled_value.
  destruct (decide (name = "all")) as [->|Hname].
  { by rewrite GroupFacts.EnableToolset_all. }
  destruct Hacc as [?|[ts Hlook]]; [done|].
  rewrite (GroupFacts.EnableToolset_present _ ts) by done. simpl.
  destruct (ToolsetGroup.everythingOn (group σ)); [done|].
  by rewrite Hlook, fn_lookup_insert.
Qed.

(** *** A list of names *)

Lemma EnableToolsets_error_iff names : ∀ σ,
  (EnableToolsets names σ).1 = None ↔ Forall (accepted σ) names.
Proof.
  induction names as [|name names IH]; intros σ; [done|].
  rewrite EnableToolsets_cons, Forall_cons_iff.
  pose proof (EnableToolset_error_iff name σ) as Hone.
  pose proof (EnableToolset_later name σ) as Hl.
  destruct (EnableToolset name σ).1 as [e|]; simpl.
  - split; [done|]. intros [Hacc _]. by apply Hone in Hacc.
  - rewrite IH. split.
    + intros Hall. split; [by apply Hone|].
      eapply Forall_impl; [|exact Hall]. intros n Hn.
      by apply (accepted_later n σ (EnableToolset name σ).2).
    + intros [_ Hall]. eapply Forall_impl; [|exact Hall]. intros n Hn.
      by apply (accepted_later n σ (EnableToolset name σ).2).
Qed.

Lemma EnableToolsets_enables names : ∀ σ name,
  (EnableToolsets names σ).1 = None → name ∈ names →
  (IsEnabled name (EnableToolsets names σ).2).1 = true.
Proof.
  induction names as [|n names IH]; intros σ name Hok Hin.
  { by apply elem_of_nil in Hin. }
  rewrite EnableToolsets_cons in Hok |- *.
  pose proof (EnableToolset_error_iff n σ) as Hone.
  destruct (EnableToolset n σ).1 as [e|] eqn:He; [done|].
  apply elem_of_cons in Hin. destruct Hin as [->|Hin].
  - eapply IsEnabled_later; [apply EnableToolsets_later|].
    apply EnableToolset_enables. by apply Hone.
  - by apply IH.
Qed.

Lemma EnableToolsets_app pre rest : ∀ σ,
  (EnableToolsets pre σ).1 = None →
  EnableToolsets (pre ++ rest) σ = EnableToolsets rest (EnableToolsets pre σ).2.
Proof.
  induction pre as [|n pre IH]; intros σ Hok; [done|].
  rewrite <- app_comm_cons, !EnableToolsets_cons in *.
  destruct (EnableToolset n σ).1; [done|]. by apply IH.
Qed.

(** X4.  [EnableToolsets] returns no error exactly when every name is
    ["all"] or a key of the group, and then [IsEnabled] answers true for
    each of the names. *)
Theorem EnableToolsets_succeeds_iff (names : list string) (σ : state) :
  ((EnableToolsets names σ).1 = None ↔ Forall (accepted σ) names)
  ∧ ((EnableToolsets names σ).1 = None →
     ∀ name, name ∈ names → (IsEnabled name (EnableToolsets names σ).2).1 = true).
Proof.
  split; [apply EnableToolsets_error_iff|].
  intros Hok name Hin. by apply EnableToolsets_enables.
Qed.

Lemma EnableToolsets_first_error pre bad post σ :
  Forall (accepted σ) pre → ¬ accepted σ bad →
  EnableToolsets (pre ++ bad :: post) σ
  = (Some ("toolset " +:+ bad +:+ " does not exist"), (EnableToolsets pre σ).2).
Proof.
  intros Hpre Hbad. apply EnableToolsets_error_iff in Hpre.
  rewrite EnableToolsets_app by done. rewrite EnableToolsets_cons.
  rewrite EnableToolset_rejects; [done|].
  by rewrite <- (accepted_later bad σ) by apply EnableToolsets_later.
Qed.

(** X5.  [EnableToolsets] stops at the first name that is neither ["all"]
    nor a key: it returns the error for that name, does not look at the
    names after it, and leaves in force what the names before it did, so
    that [IsEnabled] answers true for each of those. *)
Theorem EnableToolsets_fails_fast (pre post : list string) (bad : string) (σ : state) :
  Forall (accepted σ) pre → ¬ accepted σ bad →
  EnableToolsets (pre ++ bad :: post) σ
  = (Some ("toolset " +:+ bad +:+ " does not exist"), (EnableToolsets pre σ).2)
  ∧ ∀ name, name ∈ pre →
      (IsEnabled name (EnableToolsets (pre ++ bad :: post) σ).2).1 = true.
Proof.
  intros Hpre Hbad. rewrite EnableToolsets_first_error by done.
  split; [done|]. intros name Hin. simpl.
  apply EnableToolsets_enables; [|done]. by apply EnableToolsets_error_iff.
Qed.

(** X6.  Enabling never disables: a name for which [IsEnabled] answers
    true keeps that answer after [EnableToolset] and after
    [EnableToolsets], whatever their arguments and whether or not they
    return an error. *)
Theorem IsEnabled_stays_true (n name : string) (names : list string) (σ : state) :
  (IsEnabled n σ).1 = true →
  (IsEnabled n (EnableToolset name σ).2).1 = true
  ∧ (IsEnabled n (EnableToolsets names σ).2).1 = true.
Proof.
  intros Hon. split.
  - eapply IsEnabled_later; [apply EnableToolset_later|done].
  - eapply IsEnabled_later; [apply EnableToolsets_later|done].
Qed.

(** *** Adding toolsets *)


(** X8.  Two toolsets added under one name: the key maps to the one
    added last, no other key is touched, and [IsEnabled] for the name
    answers with the flag of the one added last. *)
Theorem AddToolset_last_wins (a b : loc) (σ : state) :
  Toolset.Name (store σ a) = Toolset.Name (store σ b) →
  let σ' := (AddToolsets [a; b] σ).2 in
  ToolsetGroup.Toolsets (group σ') !! Toolset.Name (store σ a) = Some b
  ∧ (∀ k, k ≠ Toolset.Name (store σ a) →
          ToolsetGroup.Toolsets (group σ') !! k = ToolsetGroup.Toolsets (group σ) !! k)
  ∧ (ToolsetGroup.everythingOn (group σ) = false →
     (IsEnabled (Toolset.Name (store σ a)) σ').1 = Toolset.Enabled (store σ b)).
Proof.
  intros Hname. cbv zeta.
  rewrite !GroupFacts.AddToolsets_cons.
  change (AddToolsets [] ?s) with ((), s). simpl.
  assert (ToolsetGroup.Toolsets (group (AddToolset b (AddToolset a σ).2).2)
          = <[Toolset.Name (store σ a) := b]>
              (<[Toolset.Name (store σ a) := a]> (ToolsetGroup.Toolsets (group σ))))
    as Hkeys.
  { rewrite !GroupFacts.AddToolset_group. simpl.
    by rewrite GroupFacts.AddToolset_Name, <- Hname. }
  split; [|split].
  - by rewrite Hkeys, lookup_insert_eq.
  - intros k Hk. by rewrite Hkeys, !lookup_insert_ne.
  - intros Hoff. rewrite GroupFacts.IsEnabled_value, Hkeys, lookup_insert_eq.
    rewrite !GroupFacts.AddToolset_store, !GroupFacts.AddToolset_group. simpl.
    rewrite Hoff.
    destruct (ToolsetGroup.readOnly (group σ)); simpl; [|done].
    rewrite fn_lookup_insert. simpl.
    destruct (decide (a = b)) as [->|Hne].
    + by rewrite fn_lookup_insert.
    + by rewrite fn_lookup_insert_ne.
Qed.

(** *** Registering the group *)

Lemma range_RegisterTools_run tss : ∀ σ,
  range_RegisterTools tss σ
  = ((), set_host (λ h, h ++ concat (map (λ l, toolset_calls (store σ l)) tss)) σ).
Proof.
  induction tss as [|l tss IH]; intros σ.
  - simpl. unfold mret, M_ret, set_host. simpl. rewrite app_nil_r. by destruct σ.
  - simpl. unfold mbind, M_bind, deref, gets, modify. simpl. rewrite IH.
    unfold set_host. simpl.
    by rewrite ToolsetMore.RegisterTools_appends, <- app_assoc.
Qed.

Lemma calls_of_disabled (σ : state) tss :
  (∀ l, l ∈ tss → Toolset.Enabled (store σ l) = false) →
  concat (map (λ l, toolset_calls (store σ l)) tss) = [].
Proof.
  induction tss as [|l tss IH]; intros Hoff; [done|].
  simpl. unfold toolset_calls at 1. rewrite (Hoff l) by left. simpl.
  apply IH. intros l' Hin. apply Hoff. by right.
Qed.

Lemma elem_of_members {V} (m : gmap string V) v :
  v ∈ (map_to_list m).*2 ↔ ∃ k, m !! k = Some v.
Proof.
  rewrite list_elem_of_fmap. split.
  - intros ([k v'] & -> & Hin). apply elem_of_map_to_list in Hin. by exists k.
  - intros [k Hk]. exists (k, v). split; [done|]. by apply elem_of_map_to_list.
Qed.

Lemma RegisterTools_run σ :
  RegisterTools σ
  = ((), set_host
           (λ h, h ++ concat (map (λ l, toolset_calls (store σ l))
                                (map_to_list (ToolsetGroup.Toolsets (group σ))).*2)) σ).
Proof.
  unfold RegisterTools, mbind, M_bind, gets. simpl.
  by rewrite range_RegisterTools_run.
Qed.

Lemma RegisterTools_disabled σ :
  (∀ k l, ToolsetGroup.Toolsets (group σ) !! k = Some l →
          Toolset.Enabled (store σ l) = false) →
  host (RegisterTools σ).2 = host σ.
Proof.
  intros Hoff. rewrite RegisterTools_run. simpl.
  rewrite calls_of_disabled; [by rewrite app_nil_r|].
  intros l [k Hk]%elem_of_members. by apply (Hoff k).
Qed.

(** X9.  [ToolsetGroup.RegisterTools] touches only the host server.
    For whatever order [tss] the loop meets the members in, the host
    receives the calls of each member in turn, which are none for a
    member whose own [Enabled] flag is off.  [everythingOn] plays no
    part: with every member's flag off nothing is registered. *)
Theorem RegisterTools_group (tss : list loc) (v : bool) (σ : state) :
  store (RegisterTools σ).2 = store σ
  ∧ group (RegisterTools σ).2 = group σ
  ∧ host (range_RegisterTools tss σ).2
    = host σ ++ concat (map (λ l, toolset_calls (store σ l)) tss)
  ∧ host (RegisterTools σ).2
    = host (range_RegisterTools (map_to_list (ToolsetGroup.Toolsets (group σ))).*2 σ).2
  ∧ host (RegisterTools (set_group (ToolsetGroup.set_everythingOn v) σ)).2
    = host (RegisterTools σ).2
  ∧ ((∀ k l, ToolsetGroup.Toolsets (group σ) !! k = Some l →
             Toolset.Enabled (store σ l) = false) →
     host (RegisterTools σ).2 = host σ).
Proof.
  split; [by rewrite RegisterTools_run|]. split; [by rewrite RegisterTools_run|].
  split; [by rewrite range_RegisterTools_run|].
  split; [by rewrite RegisterTools_run, range_RegisterTools_run|].
  split; [by rewrite !RegisterTools_run|]. apply RegisterTools_disabled.
Qed.

End GroupMore.
End GroupMore.

(** ** Further properties of the dynamic tools *)
Module DynamicMore.
Section DynamicMore.
Context `{External}.
Import toolsets Logic.

(** *** The handlers, case by case *)

Lemma features_lookup σ name :
  features σ !! name
  = (λ _, (IsEnabled name σ).1) <$> ToolsetGroup.Toolsets (group σ) !! name.
Proof.
  unfold features.
  rewrite (DynamicFacts.fold_features_lookup (λ name, (IsEnabled name σ).1)).
  case_decide as Hin; rewrite DynamicFacts.elem_of_keys in Hin.
  - by destruct Hin as [l ->].
  - apply eq_None_not_Some in Hin. by rewrite Hin, lookup_empty.
Qed.

Lemma ListAvailableToolsets_run request σ :
  github.ListAvailableToolsets request σ
  = ((Some (mcp.NewToolResultText (json.Marshal json.bool_text (features σ)).1), None), σ).
Proof.
  unfold github.ListAvailableToolsets.
  unfold mbind at 1, M_bind at 1, gets at 1. unfold mbind, M_bind.
  by rewrite DynamicFacts.range_features_run.
Qed.

Lemma GetToolsetsTools_missing request err σ :
  requiredParam request "toolset" = inr err →
  github.GetToolsetsTools request σ = ((Some (mcp.NewToolResultError err), None), σ).
Proof. unfold github.GetToolsetsTools. by intros ->. Qed.

Lemma GetToolsetsTools_unknown request name σ :
  requiredParam request "toolset" = inl name →
  ToolsetGroup.Toolsets (group σ) !! name = None →
  github.GetToolsetsTools request σ =
    ((Some (mcp.NewToolResultError ("Toolset " +:+ name +:+ " not found")), None), σ).
Proof.
  unfold github.GetToolsetsTools. intros -> Hl.
  unfold mbind, M_bind, gets, mret, M_ret; simpl. by rewrite Hl.
Qed.

Lemma GetToolsetsTools_known request name ts σ :
  requiredParam request "toolset" = inl name →
  ToolsetGroup.Toolsets (group σ) !! name = Some ts →
  github.GetToolsetsTools request σ =
    ((Some (mcp.NewToolResultText
              (json.Marshal json_quote
                 (github.range_tools (Toolset.GetActiveTools (store σ ts)) ∅)).1),
      None), σ).
Proof.
  unfold github.GetToolsetsTools. intros -> Hl.
  unfold mbind, M_bind, gets, deref, mret, M_ret; simpl. by rewrite Hl.
Qed.

Lemma EnableToolset_handler_later request σ :
  later σ (github.EnableToolset request σ).2.
Proof.
  destruct (DynamicFacts.EnableToolset_handler_frame request σ) as (Hg & _ & Hst).
  split; [by rewrite Hg|]. split; [by rewrite Hg|].
  intros l Hon. destruct (Hst l) as [->|[_ ->]]; done.
Qed.

(** X10.  Each of the three handlers returns a result and no error for
    every request and state, and the list and tools handlers leave the
    state as it is. *)
Theorem handlers_always_answer (request : CallToolRequest) (σ : state) :
  (∃ r, (github.EnableToolset request σ).1 = (Some r, None))
  ∧ (∃ r, github.ListAvailableToolsets request σ = ((Some r, None), σ))
  ∧ (∃ r, github.GetToolsetsTools request σ = ((Some r, None), σ)).
Proof.
  split; [|split].
  - destruct (requiredParam request "toolset") as [name|err] eqn:Hreq.
    2: { rewrite (DynamicFacts.EnableToolset_missing _ err) by done. by eexists. }
    destruct (ToolsetGroup.Toolsets (group σ) !! name) as [ts|] eqn:Hl.
    2: { rewrite (DynamicFacts.EnableToolset_unknown _ name) by done. by eexists. }
    destruct (Toolset.Enabled (store σ ts)) eqn:Hen.
    + rewrite (DynamicFacts.EnableToolset_already _ name ts) by done. by eexists.
    + rewrite (DynamicFacts.EnableToolset_fresh _ name ts) by done. by eexists.
  - rewrite ListAvailableToolsets_run. by eexists.
  - destruct (requiredParam request "toolset") as [name|err] eqn:Hreq.
    2: { rewrite (GetToolsetsTools_missing _ err) by done. by eexists. }
    destruct (ToolsetGroup.Toolsets (group σ) !! name) as [ts|] eqn:Hl.
    + rewrite (GetToolsetsTools_known _ name ts) by done. by eexists.
    + rewrite (GetToolsetsTools_unknown _ name) by done. by eexists.
Qed.

(** X11.  After the enable handler has run for a name that is a key of
    the group, [IsEnabled] answers true for the name and the list handler
    reports it as enabled, whether or not the toolset was enabled before;
    and no name for which [IsEnabled] answered true loses that answer. *)
Theorem EnableToolset_handler_enables (request : CallToolRequest) (name : string)
    (ts : loc) (σ : state) :
  requiredParam request "toolset" = inl name →
  ToolsetGroup.Toolsets (group σ) !! name = Some ts →
  (IsEnabled name (github.EnableToolset request σ).2).1 = true
  ∧ features (github.EnableToolset request σ).2 !! name = Some true
  ∧ ∀ n, (IsEnabled n σ).1 = true →
         (IsEnabled n (github.EnableToolset request σ).2).1 = true.
Proof.
  intros Hreq Hl.
  assert ((IsEnabled name (github.EnableToolset request σ).2).1 = true) as Hon.
  { rewrite GroupFacts.IsEnabled_value.
    destruct (Toolset.Enabled (store σ ts)) eqn:Hen.
    - rewrite (DynamicFacts.EnableToolset_already _ name ts) by done. simpl.
      rewrite Hl, Hen. by destruct (ToolsetGroup.everythingOn (group σ)).
    - rewrite (DynamicFacts.EnableToolset_fresh _ name ts) by done. simpl.
      rewrite Hl, fn_lookup_insert. by destruct (ToolsetGroup.everythingOn (group σ)). }
  split; [done|]. split.
  - rewrite features_lookup, Hon.
    destruct (DynamicFacts.EnableToolset_handler_frame request σ) as (-> & _).
    by rewrite Hl.
  - intros n. apply GroupMore.IsEnabled_later, EnableToolset_handler_later.
Qed.

(** X12.  For a name other than ["all"] that is a key of the group, the
    enable handler does to the toolsets and to the group what
    [ToolsetGroup.EnableToolset] does; the difference is the host server,
    which the method leaves alone and to which the handler submits the
    active tools when the toolset was not enabled. *)
Theorem EnableToolset_handler_as_method (request : CallToolRequest) (name : string)
    (ts : loc) (σ : state) :
  requiredParam request "toolset" = inl name →
  name ≠ "all" →
  ToolsetGroup.Toolsets (group σ) !! name = Some ts →
  (∀ l, store (github.EnableToolset request σ).2 l = store (EnableToolset name σ).2 l)
  ∧ group (github.EnableToolset request σ).2 = group (EnableToolset name σ).2
  ∧ host (EnableToolset name σ).2 = host σ
  ∧ host (github.EnableToolset request σ).2
    = host σ ++ (if Toolset.Enabled (store σ ts) then []
                 else [server.CallAddTools
                         (Toolset.GetActiveTools (store (EnableToolset name σ).2 ts))]).
Proof.
  intros Hreq Hname Hl.
  rewrite (GroupFacts.EnableToolset_present name ts) by done. simpl.
  rewrite fn_lookup_insert.
  destruct (Toolset.Enabled (store σ ts)) eqn:Hen.
  - rewrite (DynamicFacts.EnableToolset_already _ name ts) by done. simpl.
    rewrite app_nil_r. repeat split. intros l.
    destruct (decide (ts = l)) as [<-|Hne].
    + rewrite fn_lookup_insert. destruct (store σ ts); simpl in *. by subst.
    + by rewrite fn_lookup_insert_ne.
  - rewrite (DynamicFacts.EnableToolset_fresh _ name ts) by done. by simpl.
Qed.

(** X13.  When the enable handler turns a toolset on, the tools it
    submits are those that [Toolset.RegisterTools] would submit for the
    toolset, but it registers none of the resource templates, each of
    which [Toolset.RegisterTools] registers. *)
Theorem EnableToolset_handler_skips_templates (request : CallToolRequest)
    (name : string) (ts : loc) (σ : state) :
  requiredParam request "toolset" = inl name →
  ToolsetGroup.Toolsets (group σ) !! name = Some ts →
  Toolset.Enabled (store σ ts) = false →
  let σ' := (github.EnableToolset request σ).2 in
  let added := drop (length (host σ)) (host σ') in
  concat (map server.submitted added)
  = concat (map server.submitted
              (drop (length (host σ)) (Toolset.RegisterTools (store σ' ts) (host σ))))
  ∧ (∀ template h, server.CallAddResourceTemplate template h ∉ added)
  ∧ (∀ r, r ∈ Toolset.resourceTemplates (store σ ts) →
          server.CallAddResourceTemplate (templateResource r) (handler r)
          ∈ drop (length (host σ)) (Toolset.RegisterTools (store σ' ts) (host σ))).
Proof.
  intros Hreq Hl Hen. cbv zeta.
  rewrite (DynamicFacts.EnableToolset_fresh _ name ts) by done. simpl.
  rewrite fn_lookup_insert. unfold server.AddTools.
  rewrite ToolsetMore.RegisterTools_appends, !drop_app_length.
  split; [|split].
  - simpl. by rewrite app_nil_r, ToolsetMore.submitted_toolset_calls.
  - intros template h Hin. apply list_elem_of_singleton in Hin. discriminate Hin.
  - intros r Hr. unfold toolset_calls. simpl.
    rewrite !elem_of_app. right. right.
    unfold template_calls. apply list_elem_of_fmap. by exists r.
Qed.

(** X14.  With [everythingOn] set and a toolset whose own flag is off,
    the three handlers disagree: the list handler reports the toolset as
    enabled, the tools handler returns the empty object for it, and the
    enable handler answers "enabled", not "is already enabled", and
    submits its tools. *)
Theorem everythingOn_not_seen_by_handlers (request : CallToolRequest) (name : string)
    (ts : loc) (σ : state) :
  requiredParam request "toolset" = inl name →
  ToolsetGroup.Toolsets (group σ) !! name = Some ts →
  ToolsetGroup.everythingOn (group σ) = true →
  Toolset.Enabled (store σ ts) = false →
  (github.ListAvailableToolsets request σ).1
  = (Some (mcp.NewToolResultText (json.Marshal json.bool_text (features σ)).1), None)
  ∧ features σ !! name = Some true
  ∧ (github.GetToolsetsTools request σ).1 = (Some (mcp.NewToolResultText "{}"), None)
  ∧ (github.EnableToolset request σ).1
    = (Some (mcp.NewToolResultText ("Toolset " +:+ name +:+ " enabled")), None)
  ∧ host (github.EnableToolset request σ).2
    = host σ ++ [server.CallAddTools
                   (Toolset.GetActiveTools (Toolset.set_Enabled true (store σ ts)))].
Proof.
  intros Hreq Hl Hon Hen.
  rewrite ListAvailableToolsets_run, features_lookup, GroupFacts.IsEnabled_value.
  rewrite Hon, Hl, (GetToolsetsTools_known _ name ts) by done.
  rewrite (DynamicFacts.EnableToolset_fresh _ name ts) by done.
  unfold Toolset.GetActiveTools at 1. rewrite Hen.
  change (github.range_tools [] ∅) with (∅ : gmap string string).
  by rewrite DynamicFacts.Marshal_empty.
Qed.

(** X15.  The names that [ToolsetEnum] offers are the keys of the group,
    each once, and they are the names for which the enable handler and
    the tools handler do not answer with an error result. *)
Theorem ToolsetEnum_names (request : CallToolRequest) (name : string) (σ : state) :
  requiredParam request "toolset" = inl name →
  (github.ToolsetEnum σ).2 = σ
  ∧ NoDup (github.ToolsetEnum σ).1
  ∧ (name ∈ (github.ToolsetEnum σ).1
     ↔ is_Some (ToolsetGroup.Toolsets (group σ) !! name))
  ∧ (name ∈ (github.ToolsetEnum σ).1
     ↔ ∃ r, (github.EnableToolset request σ).1 = (Some r, None) ∧ mcp.IsError r = false)
  ∧ (name ∈ (github.ToolsetEnum σ).1
     ↔ ∃ r, (github.GetToolsetsTools request σ).1 = (Some r, None) ∧ mcp.IsError r = false).
Proof.
  intros Hreq. unfold github.ToolsetEnum, mbind, M_bind, gets, mret, M_ret. simpl.
  split; [done|]. split; [apply NoDup_fst_map_to_list|].
  rewrite DynamicFacts.elem_of_keys. split; [done|].
  destruct (ToolsetGroup.Toolsets (group σ) !! name) as [ts|] eqn:Hl.
  - split.
    + split; [intros _|by eexists].
      destruct (Toolset.Enabled (store σ ts)) eqn:Hen.
      * rewrite (DynamicFacts.EnableToolset_already _ name ts) by done. by eexists.
      * rewrite (DynamicFacts.EnableToolset_fresh _ name ts) by done. by eexists.
    + split; [intros _|by eexists].
      rewrite (GetToolsetsTools_known _ name ts) by done. by eexists.
  - rewrite (DynamicFacts.EnableToolset_unknown _ name) by done.
    rewrite (GetToolsetsTools_unknown _ name) by done. simpl.
    split; (split; [by intros [? ?]|]); intros (r & Hr & Herr);
      injection Hr as <-; discriminate Herr.
Qed.

(** X16.  The map that the list handler builds does not depend on the
    order in which its loop meets the keys of the group. *)
Theorem range_features_any_order (names : list string) (σ : state) :
  names ≡ₚ (map_to_list (ToolsetGroup.Toolsets (group σ))).*1 →
  github.range_features names ∅ σ = (features σ, σ).
Proof.
  intros Hp. rewrite (DynamicFacts.range_features_order _ _ _ _ Hp).
  by rewrite DynamicFacts.range_features_run.
Qed.

End DynamicMore.
End DynamicMore.

(** ** Properties of [InitToolsets] *)
Module InitMore.
Section InitMore.
Context `{External}.
Import toolsets Logic.

(** *** What [EnableToolsets] does to the state *)

Lemma EnableToolsets_state names : ∀ σ,
  (EnableToolsets names σ).1 = None →
  next (EnableToolsets names σ).2 = next σ
  ∧ host (EnableToolsets names σ).2 = host σ
  ∧ ToolsetGroup.Toolsets (group (EnableToolsets names σ).2)
    = ToolsetGroup.Toolsets (group σ)
  ∧ ToolsetGroup.readOnly (group (EnableToolsets names σ).2)
    = ToolsetGroup.readOnly (group σ)
  ∧ (ToolsetGroup.everythingOn (group (EnableToolsets names σ).2) = true
     ↔ ToolsetGroup.everythingOn (group σ) = true ∨ "all" ∈ names)
  ∧ ∀ l,
      ((∃ name, name ∈ names ∧ name ≠ "all"
                ∧ ToolsetGroup.Toolsets (group σ) !! name = Some l) →
       store (EnableToolsets names σ).2 l = Toolset.set_Enabled true (store σ l))
      ∧ (¬ (∃ name, name ∈ names ∧ name ≠ "all"
                    ∧ ToolsetGroup.Toolsets (group σ) !! name = Some l) →
         store (EnableToolsets names σ).2 l = store σ l).
Proof.
  induction names as [|n names IH]; intros σ Hok.
  { repeat split; try done.
    - by left.
    - intros [?|Hin]; [done|]. by apply elem_of_nil in Hin.
    - intros (name & Hin & _). by apply elem_of_nil in Hin. }
  rewrite GroupMore.EnableToolsets_cons in Hok |- *.
  destruct (decide (n = "all")) as [->|Hn].
  - rewrite GroupFacts.EnableToolset_all in Hok |- *.
    cbn [fst snd] in Hok |- *.
    destruct (IH _ Hok) as (-> & -> & -> & -> & Hev & Hst).
    repeat split; try done.
    + intros _. right. by left.
    + intros _. apply Hev. by left.
    + intros (name & Hin & Hname & Hl). apply elem_of_cons in Hin.
      destruct Hin as [->|Hin]; [done|].
      apply (proj1 (Hst l)). by exists name.
    + intros Hno. apply (proj2 (Hst l)). intros (name & Hin & Hname & Hl).
      apply Hno. exists name. split; [by right|done].
  - destruct (ToolsetGroup.Toolsets (group σ) !! n) as [ts|] eqn:Hl.
    2: { by rewrite GroupFacts.EnableToolset_absent in Hok. }
    rewrite (GroupFacts.EnableToolset_present n ts) in Hok |- * by done.
    cbn [fst snd] in Hok |- *.
    destruct (IH _ Hok) as (-> & -> & -> & -> & Hev & Hst).
    cbn [group store set_store] in Hev, Hst |- *.
    repeat split; try done.
    + intros [?|Hin]%Hev; [by left|right; by right].
    + intros [?|Hin]; apply Hev; [by left|]. apply elem_of_cons in Hin.
      destruct Hin as [?|Hin]; [done|by right].
    + intros (name & Hin & Hname & Hlook).
      destruct (decide (ts = l)) as [<-|Hne].
      * destruct (Hst ts) as [Hyes Hno].
        destruct (decide (Exists (λ name, name ≠ "all"
                    ∧ ToolsetGroup.Toolsets (group σ) !! name = Some ts) names))
          as [He|He]; rewrite list.Exists_exists in He.
        -- rewrite (Hyes He). by rewrite fn_lookup_insert.
        -- rewrite (Hno He). by rewrite fn_lookup_insert.
      * apply elem_of_cons in Hin. destruct Hin as [->|Hin]; [congruence|].
        rewrite (proj1 (Hst l)) by (by exists name).
        by rewrite fn_lookup_insert_ne.
    + intros Hno. rewrite (proj2 (Hst l)).
      * rewrite fn_lookup_insert_ne; [done|]. intros <-. apply Hno.
        exists n. split; [by left|done].
      * intros (name & Hin & Hrest). apply Hno. exists name. split; [by right|done].
Qed.

(** *** The toolsets before the names are enabled *)

Lemma staged_NewToolset n0 h structs tg name description :
  triple (staged n0 h structs tg) (NewToolset name description)
    (λ ts σ, ts = n0 + length structs
             ∧ staged n0 h (structs ++ [Toolset.new name description]) tg σ).
Proof.
  intros σ (Hnext & Hst & Hg & Hh).
  unfold NewToolset, mbind, M_bind, gets, modify, mret, M_ret; simpl.
  split; [done|]. split; [|split; [|done]]; simpl.
  - rewrite length_app. simpl. lia.
  - intros i t Hi. rewrite Hnext.
    destruct (decide (i = length structs)) as [->|Hne].
    + rewrite fn_lookup_insert. rewrite list_lookup_middle in Hi by done.
      by injection Hi.
    + rewrite fn_lookup_insert_ne by lia. apply Hst.
      rewrite lookup_app_l in Hi; [done|].
      apply lookup_lt_Some in Hi. rewrite length_app in Hi. simpl in Hi. lia.
Qed.

Lemma staged_on n0 h structs tg i t f :
  structs !! i = Some t →
  triple (staged n0 h structs tg) (on (n0 + i) f)
    (λ _, staged n0 h (<[i := f t]> structs) tg).
Proof.
  intros Hi σ (Hnext & Hst & Hg & Hh). split; [|split; [|done]].
  - simpl. by rewrite length_insert.
  - intros j t' Hj. simpl. destruct (decide (i = j)) as [<-|Hne].
    + rewrite fn_lookup_insert, (Hst i t Hi).
      rewrite list_lookup_insert_eq in Hj by (by eapply lookup_lt_Some).
      by injection Hj.
    + rewrite fn_lookup_insert_ne by lia. apply Hst.
      by rewrite list_lookup_insert_ne in Hj.
Qed.

Lemma staged_AddToolset n0 h structs tg i t :
  structs !! i = Some t →
  triple (staged n0 h structs tg) (AddToolset (n0 + i))
    (λ _, staged n0 h (<[i := policy (ToolsetGroup.readOnly tg) t]> structs)
            (ToolsetGroup.set_Toolsets (λ m, <[Toolset.Name t := n0 + i]> m) tg)).
Proof.
  intros Hi σ (Hnext & Hst & Hg & Hh). split; [|split; [|split]].
  - rewrite length_insert.
    unfold AddToolset, mbind, M_bind, gets, deref, on, modify, mret, M_ret; simpl.
    by destruct (ToolsetGroup.readOnly (group σ)).
  - intros j t' Hj. rewrite GroupFacts.AddToolset_store, Hg.
    destruct (decide (i = j)) as [<-|Hne].
    + rewrite list_lookup_insert_eq in Hj by (by eapply lookup_lt_Some).
      injection Hj as <-. unfold policy.
      destruct (ToolsetGroup.readOnly tg); [|by apply Hst].
      by rewrite fn_lookup_insert, (Hst i t Hi).
    + rewrite list_lookup_insert_ne in Hj by done.
      destruct (ToolsetGroup.readOnly tg); [|by apply Hst].
      rewrite fn_lookup_insert_ne by lia. by apply Hst.
  - by rewrite GroupFacts.AddToolset_group, (Hst i t Hi), Hg.
  - unfold AddToolset, mbind, M_bind, gets, deref, on, modify, mret, M_ret; simpl.
    by destruct (ToolsetGroup.readOnly (group σ)).
Qed.

Local Ltac new_toolset :=
  eapply DynamicFacts.triple_bind;
  [ apply staged_NewToolset
  | intros ?ts; apply DynamicFacts.triple_pure; intros ->; simpl length ].

Local Ltac method :=
  eapply DynamicFacts.triple_bind; [ eapply staged_on; reflexivity | intros [] ].

Local Ltac add_toolset :=
  eapply DynamicFacts.triple_bind; [ eapply staged_AddToolset; reflexivity | intros [] ].

(** [InitToolsets] is [EnableToolsets] run on a state in which the eight
    toolsets stand at the addresses [next σ], [next σ + 1], ..., filled
    and added to the new group, none of them enabled. *)
Lemma InitToolsets_stages c passedToolsets readOnly σ :
  ∃ σ1,
    github.InitToolsets c passedToolsets readOnly σ = EnableToolsets passedToolsets σ1
    ∧ host σ1 = host σ
    ∧ group σ1 = {| ToolsetGroup.Toolsets := init_keys (next σ);
                    ToolsetGroup.everythingOn := false;
                    ToolsetGroup.readOnly := readOnly |}
    ∧ ∀ i name rd wr rt, blueprint c !! i = Some (name, rd, wr, rt) →
        init_names !! i = Some name
        ∧ ∃ d, store σ1 (next σ + i)
               = {| Toolset.Name := name; Toolset.Description := d;
                    Toolset.Enabled := false; Toolset.readOnly := readOnly;
                    Toolset.writeTools := wr; Toolset.readTools := rd;
                    Toolset.resourceTemplates := rt |}.
Proof.
  revert σ. cut (∀ n0 h,
    triple (λ σ, next σ = n0 ∧ host σ = h)
      (github.InitToolsets c passedToolsets readOnly)
      (λ e σ', ∃ σ1,
         (e, σ') = EnableToolsets passedToolsets σ1
         ∧ host σ1 = h
         ∧ group σ1 = {| ToolsetGroup.Toolsets := init_keys n0;
                         ToolsetGroup.everythingOn := false;
                         ToolsetGroup.readOnly := readOnly |}
         ∧ ∀ i name rd wr rt, blueprint c !! i = Some (name, rd, wr, rt) →
             init_names !! i = Some name
             ∧ ∃ d, store σ1 (n0 + i)
                    = {| Toolset.Name := name; Toolset.Description := d;
                         Toolset.Enabled := false; Toolset.readOnly := readOnly;
                         Toolset.writeTools := wr; Toolset.readTools := rd;
                         Toolset.resourceTemplates := rt |})).
  { intros Ht σ. destruct (Ht (next σ) (host σ) σ (conj eq_refl eq_refl))
      as (σ1 & Hrun & Hrest).
    exists σ1. split; [|done]. rewrite <- Hrun.
    by destruct (github.InitToolsets c passedToolsets readOnly σ). }
  intros n0 h. unfold github.InitToolsets.
  eapply (DynamicFacts.triple_bind _ _ (λ _, staged n0 h [] (NewToolsetGroup readOnly))).
  { intros σ [<- <-]. repeat split; simpl; [lia|]. intros i k Hi. done. }
  intros [].
  new_toolset. method.
  new_toolset. method. method. method.
  new_toolset. method. method.
  new_toolset. method.
  new_toolset. method. method.
  new_toolset. method.
  new_toolset.
  do 7 add_toolset.
  new_toolset. method. add_toolset.
  intros σ1 (_ & Hst & Hg & Hh). exists σ1.
  split; [by destruct (EnableToolsets passedToolsets σ1)|].
  split; [done|]. split; [by rewrite Hg|].
  intros i name rd wr rt Hi.
  assert (∀ k nm rd' wr' rt' t,
    (∃ d, t = policy readOnly
                {| Toolset.Name := nm; Toolset.Description := d;
                   Toolset.Enabled := false; Toolset.readOnly := false;
                   Toolset.writeTools := wr'; Toolset.readTools := rd';
                   Toolset.resourceTemplates := rt' |}) →
    store σ1 (n0 + k) = t →
    ∃ d, store σ1 (n0 + k)
         = {| Toolset.Name := nm; Toolset.Description := d;
              Toolset.Enabled := false; Toolset.readOnly := readOnly;
              Toolset.writeTools := wr'; Toolset.readTools := rd';
              Toolset.resourceTemplates := rt' |}) as Hfields.
  { intros k nm rd' wr' rt' t [d Ht] Hs. exists d. rewrite Hs, Ht.
    by destruct readOnly. }
  destruct i as [|i]; [injection Hi as <- <- <- <-; split; [done|];
    eapply Hfields; [|exact (Hst 0 _ eq_refl)]; eexists; by destruct readOnly|].
  destruct i as [|i]; [injection Hi as <- <- <- <-; split; [done|];
    eapply Hfields; [|exact (Hst 1 _ eq_refl)]; eexists; by destruct readOnly|].
  destruct i as [|i]; [injection Hi as <- <- <- <-; split; [done|];
    eapply Hfields; [|exact (Hst 2 _ eq_refl)]; eexists; by destruct readOnly|].
  destruct i as [|i]; [injection Hi as <- <- <- <-; split; [done|];
    eapply Hfields; [|exact (Hst 3 _ eq_refl)]; eexists; by destruct readOnly|].
  destruct i as [|i]; [injection Hi as <- <- <- <-; split; [done|];
    eapply Hfields; [|exact (Hst 4 _ eq_refl)]; eexists; by destruct readOnly|].
  destruct i as [|i]; [injection Hi as <- <- <- <-; split; [done|];
    eapply Hfields; [|exact (Hst 5 _ eq_refl)]; eexists; by destruct readOnly|].
  destruct i as [|i]; [injection Hi as <- <- <- <-; split; [done|];
    eapply Hfields; [|exact (Hst 6 _ eq_refl)]; eexists; by destruct readOnly|].
  destruct i as [|i]; [injection Hi as <- <- <- <-; split; [done|];
    eapply Hfields; [|exact (Hst 7 _ eq_refl)]; eexists; by destruct readOnly|].
  done.
Qed.

(** *** The keys of the new group *)

Lemma init_keys_lookup n0 name l :
  init_keys n0 !! name = Some l ↔ ∃ i, init_names !! i = Some name ∧ l = n0 + i.
Proof.
  split.
  - unfold init_keys. intros Hl.
    repeat (rewrite lookup_insert in Hl; case_decide;
            [ subst name; injection Hl as <-; eexists; split; [|reflexivity];
              reflexivity | ]).
    by rewrite lookup_empty in Hl.
  - intros (i & Hi & ->). unfold init_keys.
    do 8 (destruct i as [|i];
          [ injection Hi as <-;
            rewrite ?lookup_insert_ne by done; by rewrite lookup_insert_eq | ]).
    done.
Qed.

Lemma init_keys_is_Some n0 name :
  is_Some (init_keys n0 !! name) ↔ name ∈ init_names.
Proof.
  rewrite list_elem_of_lookup. split.
  - intros [l (i & Hi & _)%init_keys_lookup]. by exists i.
  - intros [i Hi]. exists (n0 + i). apply init_keys_lookup. by exists i.
Qed.

Lemma init_names_not_all : "all" ∉ init_names.
Proof. unfold init_names. rewrite !elem_of_cons. by intros [?|[?|[?|[?|[?|[?|[?|[?|?%elem_of_nil]]]]]]]]. Qed.

(** What [InitToolsets] returns and the state it leaves, in full. *)
Lemma InitToolsets_spec c passedToolsets readOnly σ :
  let r := github.InitToolsets c passedToolsets readOnly σ in
  (r.1 = None ↔ ∀ name, name ∈ passedToolsets → name = "all" ∨ name ∈ init_names)
  ∧ (r.1 = None →
     host r.2 = host σ
     ∧ ToolsetGroup.readOnly (group r.2) = readOnly
     ∧ (ToolsetGroup.everythingOn (group r.2) = true ↔ "all" ∈ passedToolsets)
     ∧ (∀ name, is_Some (ToolsetGroup.Toolsets (group r.2) !! name) ↔ name ∈ init_names)
     ∧ (∀ name, (IsEnabled name r.2).1 = true
                ↔ "all" ∈ passedToolsets ∨ name ∈ passedToolsets)
     ∧ ∀ name rd wr rt, (name, rd, wr, rt) ∈ blueprint c →
         ∃ l, ToolsetGroup.Toolsets (group r.2) !! name = Some l
              ∧ Toolset.Name (store r.2 l) = name
              ∧ (Toolset.Enabled (store r.2 l) = true ↔ name ∈ passedToolsets)
              ∧ Toolset.readOnly (store r.2 l) = readOnly
              ∧ Toolset.readTools (store r.2 l) = rd
              ∧ Toolset.writeTools (store r.2 l) = wr
              ∧ Toolset.resourceTemplates (store r.2 l) = rt).
Proof.
  cbv zeta.
  destruct (InitToolsets_stages c passedToolsets readOnly σ)
    as (σ1 & -> & Hh & Hg & Hst).
  assert (ToolsetGroup.Toolsets (group σ1) = init_keys (next σ)) as Hkeys
    by by rewrite Hg.
  assert (∀ name, accepted σ1 name ↔ name = "all" ∨ name ∈ init_names) as Hacc.
  { intros name. unfold accepted. by rewrite Hkeys, init_keys_is_Some. }
  assert ((EnableToolsets passedToolsets σ1).1 = None
          ↔ ∀ name, name ∈ passedToolsets → name = "all" ∨ name ∈ init_names) as Hiff.
  { rewrite GroupMore.EnableToolsets_error_iff, list.Forall_forall.
    split; intros Hall name Hin; apply Hacc, Hall; done. }
  split; [done|]. intros Hok.
  destruct (EnableToolsets_state passedToolsets σ1 Hok)
    as (_ & Hhost & Hk & Hro & Hev & Hstore).
  rewrite Hkeys in Hk, Hstore.
  (* the toolset at index [i] after the names have been enabled *)
  assert (∀ i name rd wr rt, blueprint c !! i = Some (name, rd, wr, rt) →
    init_keys (next σ) !! name = Some (next σ + i)
    ∧ ∃ d, store (EnableToolsets passedToolsets σ1).2 (next σ + i)
           = {| Toolset.Name := name; Toolset.Description := d;
                Toolset.Enabled := bool_decide (name ∈ passedToolsets);
                Toolset.readOnly := readOnly;
                Toolset.writeTools := wr; Toolset.readTools := rd;
                Toolset.resourceTemplates := rt |}) as Hat.
  { intros i name rd wr rt Hi. destruct (Hst _ _ _ _ _ Hi) as [Hname [d Hd]].
    split; [apply init_keys_lookup; by exists i|]. exists d.
    destruct (Hstore (next σ + i)) as [Hyes Hno].
    destruct (decide (name ∈ passedToolsets)) as [Hin|Hin].
    - rewrite bool_decide_eq_true_2 by done. rewrite Hyes, Hd; [done|].
      exists name. split; [done|]. split.
      + intros ->. apply init_names_not_all. by eapply list_elem_of_lookup_2.
      + apply init_keys_lookup. by exists i.
    - rewrite bool_decide_eq_false_2 by done. rewrite Hno, Hd; [done|].
      intros (nm & Hnm & _ & (j & Hj & Heq)%init_keys_lookup).
      assert (j = i) as -> by lia. congruence. }
  assert (ToolsetGroup.everythingOn (group (EnableToolsets passedToolsets σ1).2) = true
          ↔ "all" ∈ passedToolsets) as Hon_iff.
  { rewrite Hev, Hg. simpl. split; [by intros [?|?]|by right]. }
  split; [by rewrite Hhost|]. split; [by rewrite Hro, Hg|].
  split; [done|].
  split; [intros name; by rewrite Hk, init_keys_is_Some|].
  split.
  - intros name. rewrite GroupFacts.IsEnabled_value, Hk.
    destruct (ToolsetGroup.everythingOn (group (EnableToolsets passedToolsets σ1).2)).
    { split; [intros _; left; by apply Hon_iff|done]. }
    assert ("all" ∉ passedToolsets) as Hnoall.
    { intros Hin. by apply Hon_iff in Hin. }
    destruct (init_keys (next σ) !! name) as [l|] eqn:Hl.
    + apply init_keys_lookup in Hl as (i & Hi & ->).
      destruct (lookup_lt_is_Some_2 (blueprint c) i) as [[[[nm rd] wr] rt] Hb].
      { apply lookup_lt_Some in Hi. exact Hi. }
      destruct (Hst _ _ _ _ _ Hb) as [Hnm _].
      assert (nm = name) as -> by congruence.
      destruct (Hat _ _ _ _ _ Hb) as [_ [d ->]]. simpl.
      rewrite bool_decide_eq_true. split; [by right|by intros [?|?]].
    + split; [done|]. intros [?|Hin]; [done|].
      destruct (proj1 Hiff Hok name Hin) as [->|Hn]; [done|].
      apply (init_keys_is_Some (next σ)) in Hn. rewrite Hl in Hn. by destruct Hn.
  - intros name rd wr rt [i Hi]%list_elem_of_lookup.
    destruct (Hat _ _ _ _ _ Hi) as [Hl [d Hd]].
    exists (next σ + i). rewrite Hk, Hd. simpl.
    rewrite bool_decide_eq_true. by repeat split.
Qed.

Lemma blueprint_names c name :
  name ∈ init_names → ∃ rd wr rt, (name, rd, wr, rt) ∈ blueprint c.
Proof.
  intros [i Hi]%list_elem_of_lookup.
  destruct (lookup_lt_is_Some_2 (blueprint c) i) as [[[[nm rd] wr] rt] Hb].
  { apply lookup_lt_Some in Hi. exact Hi. }
  exists rd, wr, rt. apply list_elem_of_lookup. exists i. rewrite Hb.
  do 8 (destruct i as [|i]; [by injection Hi as <-; injection Hb as <- _ _ _|]).
  done.
Qed.

(** X17.  [InitToolsets] returns an error exactly when one of the names
    passed is neither ["all"] nor the name of one of its eight toolsets.
    Otherwise it makes no call to the host server and leaves a group with
    the policy passed, with [everythingOn] set exactly when ["all"] was
    passed, and with exactly the eight names as keys; [IsEnabled] answers
    true for a name exactly when ["all"] or the name was passed; and each
    toolset holds its read tools, write tools and resource templates, is
    read-only exactly when the policy says so (its write tools are stored
    either way) and is enabled exactly when its name was passed. *)
Theorem InitToolsets_result (c : github.Catalog) (passedToolsets : list string)
    (readOnly : bool) (σ : state) :
  let r := github.InitToolsets c passedToolsets readOnly σ in
  (r.1 = None ↔ ∀ name, name ∈ passedToolsets → name = "all" ∨ name ∈ init_names)
  ∧ (r.1 = None →
     host r.2 = host σ
     ∧ ToolsetGroup.readOnly (group r.2) = readOnly
     ∧ (ToolsetGroup.everythingOn (group r.2) = true ↔ "all" ∈ passedToolsets)
     ∧ (∀ name, is_Some (ToolsetGroup.Toolsets (group r.2) !! name) ↔ name ∈ init_names)
     ∧ (∀ name, (IsEnabled name r.2).1 = true
                ↔ "all" ∈ passedToolsets ∨ name ∈ passedToolsets)
     ∧ ∀ name rd wr rt, (name, rd, wr, rt) ∈ blueprint c →
         ∃ l, ToolsetGroup.Toolsets (group r.2) !! name = Some l
              ∧ Toolset.Name (store r.2 l) = name
              ∧ (Toolset.Enabled (store r.2 l) = true ↔ name ∈ passedToolsets)
              ∧ Toolset.readOnly (store r.2 l) = readOnly
              ∧ Toolset.readTools (store r.2 l) = rd
              ∧ Toolset.writeTools (store r.2 l) = wr
              ∧ Toolset.resourceTemplates (store r.2 l) = rt).
Proof. apply InitToolsets_spec. Qed.

(** X18.  When a name passed to [InitToolsets] is neither ["all"] nor one
    of the eight toolset names, and the names before it are, the error
    returned is the one for that name, whatever follows it. *)
Theorem InitToolsets_first_error (c : github.Catalog) (pre post : list string)
    (bad : string) (readOnly : bool) (σ : state) :
  (∀ name, name ∈ pre → name = "all" ∨ name ∈ init_names) →
  bad ≠ "all" → bad ∉ init_names →
  (github.InitToolsets c (pre ++ bad :: post) readOnly σ).1
  = Some ("toolset " +:+ bad +:+ " does not exist").
Proof.
  intros Hpre Hbad Hnot.
  destruct (InitToolsets_stages c (pre ++ bad :: post) readOnly σ)
    as (σ1 & -> & _ & Hg & _).
  assert (∀ name, accepted σ1 name ↔ name = "all" ∨ name ∈ init_names) as Hacc.
  { intros name. unfold accepted. rewrite Hg. simpl. by rewrite init_keys_is_Some. }
  rewrite GroupMore.EnableToolsets_first_error; [done| |].
  - apply list.Forall_forall. intros name Hin. by apply Hacc, Hpre.
  - rewrite Hacc. by intros [?|?].
Qed.

(** X19.  With [DefaultTools] as the names, [InitToolsets] returns no
    error, does not set [everythingOn], and [IsEnabled] answers true
    exactly for the names in [DefaultTools]. *)
Theorem InitToolsets_DefaultTools (c : github.Catalog) (readOnly : bool) (σ : state) :
  let r := github.InitToolsets c github.DefaultTools readOnly σ in
  r.1 = None
  ∧ ToolsetGroup.everythingOn (group r.2) = false
  ∧ ∀ name, (IsEnabled name r.2).1 = true ↔ name ∈ github.DefaultTools.
Proof.
  cbv zeta.
  destruct (InitToolsets_spec c github.DefaultTools readOnly σ) as [Hiff Hok].
  assert ("all" ∉ github.DefaultTools) as Hnoall.
  { unfold github.DefaultTools. rewrite !elem_of_cons.
    by intros [?|[?|[?|[?|[?|[?|?%elem_of_nil]]]]]]. }
  assert ((github.InitToolsets c github.DefaultTools readOnly σ).1 = None) as Hnone.
  { apply Hiff. intros name. unfold github.DefaultTools, init_names.
    rewrite !elem_of_cons. intros [->|[->|[->|[->|[->|[->|?%elem_of_nil]]]]]];
      [right..|done]; tauto. }
  split; [done|]. destruct (Hok Hnone) as (_ & _ & Hev & _ & Hen & _). split.
  - destruct (ToolsetGroup.everythingOn _); [|done].
    exfalso. apply Hnoall. by apply Hev.
  - intros name. rewrite Hen. split; [by intros [?|?]|by right].
Qed.

(** X20.  When ["all"] is the only name passed, [InitToolsets] returns no
    error and [IsEnabled] answers true for every name, yet no toolset has
    its own flag set, so that [ToolsetGroup.RegisterTools] on the result
    registers nothing with the host server. *)
Theorem InitToolsets_all_registers_nothing (c : github.Catalog)
    (passedToolsets : list string) (readOnly : bool) (σ : state) :
  "all" ∈ passedToolsets →
  (∀ name, name ∈ passedToolsets → name = "all") →
  let r := github.InitToolsets c passedToolsets readOnly σ in
  r.1 = None
  ∧ (∀ name, (IsEnabled name r.2).1 = true)
  ∧ (∀ name l, ToolsetGroup.Toolsets (group r.2) !! name = Some l →
               Toolset.Enabled (store r.2 l) = false)
  ∧ host (RegisterTools r.2).2 = host σ.
Proof.
  intros Hall Honly. cbv zeta.
  destruct (InitToolsets_spec c passedToolsets readOnly σ) as [Hiff Hok].
  assert ((github.InitToolsets c passedToolsets readOnly σ).1 = None) as Hnone.
  { apply Hiff. intros name Hin. left. by apply Honly. }
  destruct (Hok Hnone) as (Hhost & _ & _ & Hkeys & Hen & Hbp).
  assert (∀ name l,
    ToolsetGroup.Toolsets
      (group (github.InitToolsets c passedToolsets readOnly σ).2) !! name = Some l →
    Toolset.Enabled (store (github.InitToolsets c passedToolsets readOnly σ).2 l)
    = false) as Hoff.
  { intros name l Hl.
    assert (name ∈ init_names) as Hin by (apply Hkeys; by eexists).
    destruct (blueprint_names c name Hin) as (rd & wr & rt & Hb).
    destruct (Hbp _ _ _ _ Hb) as (l' & Hl' & _ & Hflag & _).
    assert (l' = l) as -> by congruence.
    destruct (Toolset.Enabled _); [|done].
    assert (name ∈ passedToolsets) as Hp by by apply Hflag.
    apply Honly in Hp as ->. by apply init_names_not_all in Hin. }
  split; [done|]. split; [intros name; apply Hen; by left|]. split; [done|].
  rewrite <- Hhost. by apply GroupMore.RegisterTools_disabled.
Qed.

End InitMore.
End InitMore.

(** ** The properties on the sample states *)
Module Runs.
Section Runs.
#[local] Existing Instance sample.ext.
Import toolsets.

(** C1, as stated, fails: a toolset that received a write tool and was
    then made read-only is read-only with a write tool in store. *)
Lemma writeTools_survive_SetReadOnly :
  let ts := Toolset.run
              [Toolset.OpAddWriteTools [sample.create_repository]; Toolset.OpSetReadOnly]
              (Toolset.new "repos" "GitHub Repository related tools") in
  ¬ (Toolset.readOnly ts = true → Toolset.writeTools ts = []).
Proof. intros ts Hclaim. specialize (Hclaim eq_refl). discriminate Hclaim. Qed.

Lemma readOnly_keeps_writeTools_run :
  let ts := Toolset.SetReadOnly sample.repos in
  Toolset.readOnly ts = true
  ∧ Toolset.AddWriteTools [sample.search_repositories] ts = ts
  ∧ Toolset.writeTools
      (Toolset.run [Toolset.OpAddWriteTools [sample.search_repositories];
                    Toolset.OpSetEnabled true] ts)
    = [sample.create_repository].
Proof.
  intros ts. split; [reflexivity|].
  destruct (ToolsetFacts.readOnly_keeps_writeTools ts [sample.search_repositories]
              [Toolset.OpAddWriteTools [sample.search_repositories];
               Toolset.OpSetEnabled true] eq_refl) as (Hadd & _ & Hkeep & _).
  split; [exact Hadd | exact Hkeep].
Defined.

Lemma GetActiveTools_cases_run :
  Toolset.GetActiveTools sample.repos = []
  ∧ Toolset.GetActiveTools (Toolset.set_Enabled true (Toolset.SetReadOnly sample.repos))
    = [sample.search_repositories]
  ∧ Toolset.GetActiveTools (Toolset.set_Enabled true sample.repos)
    = [sample.search_repositories; sample.create_repository].
Proof.
  split; [|split].
  - exact (proj1 (ToolsetFacts.GetActiveTools_cases sample.repos) eq_refl).
  - exact (proj1 (proj2 (ToolsetFacts.GetActiveTools_cases
             (Toolset.set_Enabled true (Toolset.SetReadOnly sample.repos))))
             eq_refl eq_refl).
  - exact (proj2 (proj2 (ToolsetFacts.GetActiveTools_cases
             (Toolset.set_Enabled true sample.repos))) eq_refl eq_refl).
Defined.

Lemma EnableToolset_NotFound_iff_run :
  "issues" ≠ "all" ∧ "repos" ≠ "all"
  ∧ (EnableToolset "issues" sample.one).1 = Some "toolset issues does not exist"
  ∧ (EnableToolset "issues" sample.one).2 = sample.one
  ∧ (EnableToolset "repos" sample.one).1 = None
  ∧ Toolset.Enabled (store (EnableToolset "repos" sample.one).2 0) = true.
Proof.
  assert ("issues" ≠ "all") as Hi by discriminate.
  assert ("repos" ≠ "all") as Hr by discriminate.
  split; [exact Hi|]. split; [exact Hr|].
  destruct (GroupFacts.EnableToolset_NotFound_iff "issues" sample.one Hi)
    as (_ & Habsent & _).
  destruct (GroupFacts.EnableToolset_NotFound_iff "repos" sample.one Hr)
    as (_ & _ & Hpresent).
  destruct (Habsent eq_refl) as [He Hs].
  destruct (Hpresent 0 eq_refl) as (He' & Hen & _).
  split; [exact He|]. split; [exact Hs|]. split; [exact He'|exact Hen].
Defined.

Lemma IsEnabled_cases_run :
  (IsEnabled "repos" sample.one).1 = false
  ∧ (IsEnabled "issues" sample.one).1 = false
  ∧ (IsEnabled "issues"
       (execs [DoNewToolset "issues" "GitHub Issues related tools"; DoAddToolset 1]
          (EnableToolset "all" sample.one).2).2).1 = true
  ∧ (IsEnabled "unknown"
       (execs [DoNewToolset "issues" "GitHub Issues related tools"; DoAddToolset 1]
          (EnableToolset "all" sample.one).2).2).1 = true.
Proof.
  pose (cs := [DoNewToolset "issues" "GitHub Issues related tools"; DoAddToolset 1]).
  destruct (GroupFacts.IsEnabled_cases "repos" sample.one cs) as (_ & _ & _ & Hflag & _).
  destruct (GroupFacts.IsEnabled_cases "issues" sample.one cs) as (_ & _ & Hall & _ & Hnone).
  destruct (GroupFacts.IsEnabled_cases "unknown" sample.one cs) as (_ & _ & Hall' & _).
  split; [exact (Hflag eq_refl 0 eq_refl)|]. split; [exact (Hnone eq_refl eq_refl)|].
  split; [exact Hall | exact Hall'].
Defined.

(** C7, as stated, fails: [AddToolset] stores a toolset named ["all"]
    under the key ["all"]. *)
Lemma AddToolset_accepts_all :
  ¬ (ToolsetGroup.Toolsets (group (AddToolset 0 sample.with_all).2) !! "all" = None).
Proof. intros Hclaim. vm_compute in Hclaim. discriminate Hclaim. Qed.

Lemma AddToolset_stores_any_name_run :
  ToolsetGroup.Toolsets (group sample.one) !! "all" = None
  ∧ ToolsetGroup.Toolsets (group (AddToolset 0 sample.one).2) !! "repos" = Some 0
  ∧ ToolsetGroup.Toolsets (group (AddToolsets [0; 0] sample.one).2) !! "all" = None.
Proof.
  split; [reflexivity|].
  destruct (GroupFacts.AddToolset_stores_any_name [0; 0] sample.one eq_refl)
    as [Hstore Hiff].
  split; [exact (Hstore 0)|].
  apply Hiff. intros ts Hin Hname.
  apply elem_of_cons in Hin. destruct Hin as [->|Hin].
  - discriminate Hname.
  - apply list_elem_of_singleton in Hin. subst ts. discriminate Hname.
Defined.

Lemma EnableToolset_handler_twice_run :
  let first := github.EnableToolset (Some "repos") sample.one in
  let second := github.EnableToolset (Some "repos") first.2 in
  requiredParam (Some "repos") "toolset" = inl "repos"
  ∧ ToolsetGroup.Toolsets (group sample.one) !! "repos" = Some 0
  ∧ Toolset.Enabled (store sample.one 0) = false
  ∧ first.1 = (Some (mcp.NewToolResultText "Toolset repos enabled"), None)
  ∧ second.1 = (Some (mcp.NewToolResultText "Toolset repos is already enabled"), None)
  ∧ second.2 = first.2
  ∧ host second.2
    = [server.CallAddTools [sample.search_repositories; sample.create_repository]].
Proof.
  intros first second.
  split; [reflexivity|]. split; [reflexivity|]. split; [reflexivity|].
  destruct (DynamicFacts.EnableToolset_handler_twice (H:=sample.ext) (Some "repos") "repos" 0 sample.one
              eq_refl eq_refl) as [_ Htwice].
  destruct (Htwice eq_refl) as (H1 & H2 & Hsame & _ & Hhost & _).
  split; [exact H1|]. split; [exact H2|]. split; [exact Hsame|exact Hhost].
Defined.

Lemma GetToolsetsTools_result_run :
  requiredParam (Some "issues") "toolset" = inl "issues"
  ∧ github.GetToolsetsTools (Some "issues") sample.one =
      ((Some (mcp.NewToolResultError "Toolset issues not found"), None), sample.one)
  ∧ requiredParam (Some "repos") "toolset" = inl "repos"
  ∧ github.GetToolsetsTools (Some "repos") sample.one =
      ((Some (mcp.NewToolResultText "{}"), None), sample.one).
Proof.
  split; [reflexivity|].
  split.
  { exact (proj1 (DynamicFacts.GetToolsetsTools_result (H:=sample.ext) (Some "issues") "issues"
                    sample.one eq_refl) eq_refl). }
  split; [reflexivity|].
  destruct (proj2 (DynamicFacts.GetToolsetsTools_result (H:=sample.ext) (Some "repos") "repos"
                     sample.one eq_refl) 0 eq_refl) as (tools & Hrun & _ & Hoff).
  destruct (Hoff eq_refl) as [_ Htext].
  rewrite Hrun, Htext. reflexivity.
Defined.

Lemma EnableToolset_handler_ignores_all_run :
  let σ := (github.InitToolsets sample.catalog github.DefaultTools false
              (sample.empty false)).2 in
  requiredParam (Some "all") "toolset" = inl "all"
  ∧ ToolsetGroup.Toolsets (group σ) !! "all" = None
  ∧ (github.EnableToolset (Some "all") σ).1
    = (Some (mcp.NewToolResultError "Toolset all not found"), None)
  ∧ group (github.EnableToolset (Some "all") σ).2 = group σ.
Proof.
  intros σ. split; [reflexivity|].
  destruct (DynamicFacts.EnableToolset_handler_ignores_all (H:=sample.ext) (Some "all")
              (sample.empty false) sample.catalog github.DefaultTools false)
    as (_ & _ & Hnone & Hrun).
  destruct (DynamicFacts.EnableToolset_handler_ignores_all (H:=sample.ext) (Some "all")
              σ sample.catalog github.DefaultTools false)
    as (Hgroup & _).
  split; [exact Hnone|]. split; [|exact Hgroup].
  fold σ in Hrun. rewrite (Hrun eq_refl). reflexivity.
Defined.

(** The first scenario of the list handler on the sample group, and
    the empty group. *)
Example ListAvailableToolsets_one :
  (github.ListAvailableToolsets None sample.one).1 =
    (Some (mcp.NewToolResultText ("{" +:+ json_quote "repos" +:+ ":false}")), None)
  ∧ (github.ListAvailableToolsets None sample.one_enabled).1 =
    (Some (mcp.NewToolResultText ("{" +:+ json_quote "repos" +:+ ":true}")), None)
  ∧ (github.ListAvailableToolsets None (sample.empty false)).1 =
    (Some (mcp.NewToolResultText "{}"), None).
Proof. repeat split; vm_compute; reflexivity. Qed.

Example GetToolsetsTools_one_enabled :
  (github.GetToolsetsTools (Some "repos") sample.one_enabled).1 =
    (Some (mcp.NewToolResultText
             ("{" +:+ json_quote "create_repository" +:+ ":"
                  +:+ json_quote "Create repository" +:+ ","
                  +:+ json_quote "search_repositories" +:+ ":"
                  +:+ json_quote "Search repositories" +:+ "}")), None).
Proof. vm_compute. reflexivity. Qed.

(** One toolset reached under two names: enabling it under one name
    enables it under the other, and the handler wrote to one struct. *)
Example EnableToolset_alias :
  let σ := set_group (ToolsetGroup.set_Toolsets (λ m, <["repositories" := 0]> m))
             sample.one in
  (IsEnabled "repositories" σ).1 = false
  ∧ (IsEnabled "repositories" (github.EnableToolset (Some "repos") σ).2).1 = true.
Proof. split; vm_compute; reflexivity. Qed.

End Runs.
End Runs.

(** ** The further properties on the sample states *)
Module MoreRuns.
Section MoreRuns.
#[local] Existing Instance sample.ext.
Import toolsets Logic.

Lemma EnableToolsets_succeeds_iff_run :
  (EnableToolsets ["repos"; "all"] sample.one).1 = None
  ∧ (IsEnabled "repos" (EnableToolsets ["repos"; "all"] sample.one).2).1 = true
  ∧ (EnableToolsets ["repos"; "issues"] sample.one).1 ≠ None.
Proof.
  destruct (GroupMore.EnableToolsets_succeeds_iff ["repos"; "all"] sample.one)
    as [Hiff Hon].
  destruct (GroupMore.EnableToolsets_succeeds_iff ["repos"; "issues"] sample.one)
    as [Hiff' _].
  assert ((EnableToolsets ["repos"; "all"] sample.one).1 = None) as Hok.
  { apply Hiff. apply Forall_cons_iff. split; [right; by eexists|].
    apply Forall_cons_iff. split; [by left|apply Forall_nil_2]. }
  split; [exact Hok|]. split; [apply (Hon Hok); by left|].
  intros Hok'. apply Hiff' in Hok'.
  apply Forall_cons_iff in Hok' as [_ Hok']. apply Forall_cons_iff in Hok' as [Hacc _].
  destruct Hacc as [Hacc|[l Hacc]]; discriminate Hacc.
Defined.

Lemma EnableToolsets_fails_fast_run :
  Forall (accepted sample.one) ["repos"; "all"]
  ∧ ¬ accepted sample.one "issues"
  ∧ (EnableToolsets (["repos"; "all"] ++ "issues" :: ["repos"]) sample.one).1
    = Some "toolset issues does not exist"
  ∧ (IsEnabled "repos"
       (EnableToolsets (["repos"; "all"] ++ "issues" :: ["repos"]) sample.one).2).1
    = true.
Proof.
  assert (Forall (accepted sample.one) ["repos"; "all"]) as Hpre.
  { apply Forall_cons_iff. split; [right; by eexists|].
    apply Forall_cons_iff. split; [by left|apply Forall_nil_2]. }
  assert (¬ accepted sample.one "issues") as Hbad.
  { intros [Hacc|[l Hacc]]; discriminate Hacc. }
  split; [exact Hpre|]. split; [exact Hbad|].
  destruct (GroupMore.EnableToolsets_fails_fast ["repos"; "all"] ["repos"] "issues"
              sample.one Hpre Hbad) as [Hrun Hon].
  split; [by rewrite Hrun|]. apply Hon. by left.
Defined.

Lemma IsEnabled_stays_true_run :
  (IsEnabled "repos" sample.one_enabled).1 = true
  ∧ (IsEnabled "repos" (EnableToolset "issues" sample.one_enabled).2).1 = true
  ∧ (IsEnabled "repos" (EnableToolsets ["all"; "nope"] sample.one_enabled).2).1 = true.
Proof.
  split; [reflexivity|].
  exact (GroupMore.IsEnabled_stays_true "repos" "issues" ["all"; "nope"]
           sample.one_enabled eq_refl).
Defined.


Lemma AddToolset_last_wins_run :
  Toolset.Name (store sample.twins 0) = Toolset.Name (store sample.twins 1)
  ∧ ToolsetGroup.Toolsets (group (AddToolsets [0; 1] sample.twins).2) !! "repos" = Some 1
  ∧ (IsEnabled "repos" (AddToolsets [0; 1] sample.twins).2).1 = true.
Proof.
  split; [reflexivity|].
  destruct (GroupMore.AddToolset_last_wins 0 1 sample.twins eq_refl) as (Hk & _ & Hen).
  split; [exact Hk|exact (Hen eq_refl)].
Defined.

Lemma RegisterTools_group_run :
  host (RegisterTools sample.one).2 = []
  ∧ host (RegisterTools (set_group (ToolsetGroup.set_everythingOn true) sample.one)).2 = []
  ∧ host (range_RegisterTools [1; 0] sample.two).2
    = [server.CallAddTool {| mcp.Name := "get_issue"; mcp.Description := "Get an issue" |} 5;
       server.CallAddResourceTemplate "repo://{owner}/{repo}/issues" 14].
Proof.
  destruct (GroupMore.RegisterTools_group [1; 0] true sample.one)
    as (_ & _ & _ & _ & Hsame & Hoff).
  destruct (GroupMore.RegisterTools_group [1; 0] true sample.two)
    as (_ & _ & Hcalls & _).
  assert (host (RegisterTools sample.one).2 = []) as Hnone.
  { apply Hoff. intros k l Hl.
    destruct (decide (k = "repos")) as [->|Hk].
    - injection Hl as <-. reflexivity.
    - unfold sample.one in Hl. simpl in Hl. by rewrite lookup_insert_ne in Hl. }
  split; [exact Hnone|]. split; [by rewrite Hsame|exact Hcalls].
Defined.

Lemma EnableToolset_handler_enables_run :
  requiredParam (Some "repos") "toolset" = inl "repos"
  ∧ ToolsetGroup.Toolsets (group sample.one) !! "repos" = Some 0
  ∧ (IsEnabled "repos" sample.one).1 = false
  ∧ (IsEnabled "repos" (github.EnableToolset (Some "repos") sample.one).2).1 = true.
Proof.
  split; [reflexivity|]. split; [reflexivity|]. split; [reflexivity|].
  exact (proj1 (DynamicMore.EnableToolset_handler_enables (H:=sample.ext)
                  (Some "repos") "repos" 0 sample.one eq_refl eq_refl)).
Defined.

Lemma EnableToolset_handler_as_method_run :
  requiredParam (Some "repos") "toolset" = inl "repos"
  ∧ "repos" ≠ "all"
  ∧ ToolsetGroup.Toolsets (group sample.one) !! "repos" = Some 0
  ∧ host (EnableToolset "repos" sample.one).2 = []
  ∧ host (github.EnableToolset (Some "repos") sample.one).2
    = [server.CallAddTools [sample.search_repositories; sample.create_repository]].
Proof.
  assert ("repos" ≠ "all") as Hne by discriminate.
  split; [reflexivity|]. split; [exact Hne|]. split; [reflexivity|].
  destruct (DynamicMore.EnableToolset_handler_as_method (H:=sample.ext)
              (Some "repos") "repos" 0 sample.one eq_refl Hne eq_refl)
    as (_ & _ & Hm & Hh).
  split; [exact Hm|exact Hh].
Defined.

Lemma EnableToolset_handler_skips_templates_run :
  requiredParam (Some "issues") "toolset" = inl "issues"
  ∧ ToolsetGroup.Toolsets (group sample.two) !! "issues" = Some 1
  ∧ Toolset.Enabled (store (set_store (λ st, <[1 := Toolset.set_Enabled false (st 1)]> st)
                              sample.two) 1) = false
  ∧ ∀ template h,
      server.CallAddResourceTemplate template h
      ∉ drop 0 (host (github.EnableToolset (Some "issues")
                        (set_store (λ st, <[1 := Toolset.set_Enabled false (st 1)]> st)
                           sample.two)).2).
Proof.
  split; [reflexivity|]. split; [reflexivity|]. split; [reflexivity|].
  exact (proj1 (proj2 (DynamicMore.EnableToolset_handler_skips_templates (H:=sample.ext)
           (Some "issues") "issues" 1
           (set_store (λ st, <[1 := Toolset.set_Enabled false (st 1)]> st) sample.two)
           eq_refl eq_refl eq_refl))).
Defined.

Lemma everythingOn_not_seen_by_handlers_run :
  let σ := set_group (ToolsetGroup.set_everythingOn true) sample.one in
  requiredParam (Some "repos") "toolset" = inl "repos"
  ∧ ToolsetGroup.Toolsets (group σ) !! "repos" = Some 0
  ∧ ToolsetGroup.everythingOn (group σ) = true
  ∧ Toolset.Enabled (store σ 0) = false
  ∧ features σ !! "repos" = Some true
  ∧ (github.GetToolsetsTools (Some "repos") σ).1
    = (Some (mcp.NewToolResultText "{}"), None)
  ∧ (github.EnableToolset (Some "repos") σ).1
    = (Some (mcp.NewToolResultText "Toolset repos enabled"), None).
Proof.
  intros σ.
  split; [reflexivity|]. split; [reflexivity|]. split; [reflexivity|].
  split; [reflexivity|].
  destruct (DynamicMore.everythingOn_not_seen_by_handlers (H:=sample.ext)
              (Some "repos") "repos" 0 σ eq_refl eq_refl eq_refl eq_refl)
    as (_ & Hlist & Htools & Hen & _).
  split; [exact Hlist|]. split; [exact Htools|exact Hen].
Defined.

Lemma ToolsetEnum_names_run :
  requiredParam (Some "repos") "toolset" = inl "repos"
  ∧ NoDup (github.ToolsetEnum sample.two).1
  ∧ "repos" ∈ (github.ToolsetEnum sample.two).1.
Proof.
  split; [reflexivity|].
  destruct (DynamicMore.ToolsetEnum_names (H:=sample.ext) (Some "repos") "repos"
              sample.two eq_refl) as (_ & Hnd & Hin & _).
  split; [exact Hnd|]. apply Hin. by eexists.
Defined.

Lemma range_features_any_order_run :
  reverse (map_to_list (ToolsetGroup.Toolsets (group sample.two))).*1
  ≡ₚ (map_to_list (ToolsetGroup.Toolsets (group sample.two))).*1
  ∧ github.range_features
      (reverse (map_to_list (ToolsetGroup.Toolsets (group sample.two))).*1) ∅ sample.two
    = (features sample.two, sample.two).
Proof.
  assert (reverse (map_to_list (ToolsetGroup.Toolsets (group sample.two))).*1
          ≡ₚ (map_to_list (ToolsetGroup.Toolsets (group sample.two))).*1) as Hp
    by apply reverse_Permutation.
  split; [exact Hp|].
  exact (DynamicMore.range_features_any_order _ sample.two Hp).
Defined.

Lemma InitToolsets_result_run :
  let r := github.InitToolsets sample.catalog ["repos"] true (sample.empty true) in
  r.1 = None
  ∧ ∃ l, ToolsetGroup.Toolsets (group r.2) !! "repos" = Some l
         ∧ Toolset.Enabled (store r.2 l) = true
         ∧ Toolset.readOnly (store r.2 l) = true
         ∧ Toolset.writeTools (store r.2 l) = [sample.create_repository].
Proof.
  intros r.
  destruct (InitMore.InitToolsets_result sample.catalog ["repos"] true
              (sample.empty true)) as [Hiff Hok].
  assert (r.1 = None) as Hnone.
  { apply Hiff. intros name Hin. apply list_elem_of_singleton in Hin as ->.
    right. unfold init_names. right. by left. }
  split; [exact Hnone|].
  destruct (Hok Hnone) as (_ & _ & _ & _ & _ & Hbp).
  destruct (Hbp "repos" (github.repos_read sample.catalog)
              (github.repos_write sample.catalog)
              (github.repos_resources sample.catalog))
    as (l & Hl & _ & Hen & Hro & _ & Hw & _).
  { right. by left. }
  exists l. split; [exact Hl|]. split; [apply Hen; by left|].
  split; [exact Hro|exact Hw].
Defined.

Lemma InitToolsets_first_error_run :
  "nope" ≠ "all" ∧ ("nope" ∉ init_names)
  ∧ (github.InitToolsets sample.catalog (["repos"] ++ "nope" :: ["all"]) false
       (sample.empty false)).1
    = Some "toolset nope does not exist".
Proof.
  assert ("nope" ≠ "all") as Hne by discriminate.
  assert ("nope" ∉ init_names) as Hnot.
  { unfold init_names. rewrite !elem_of_cons.
    by intros [?|[?|[?|[?|[?|[?|[?|[?|?%elem_of_nil]]]]]]]]. }
  split; [exact Hne|]. split; [exact Hnot|].
  apply (InitMore.InitToolsets_first_error sample.catalog ["repos"] ["all"] "nope"
           false (sample.empty false)); [|exact Hne|exact Hnot].
  intros name Hin. apply list_elem_of_singleton in Hin as ->.
  right. unfold init_names. right. by left.
Defined.

Lemma InitToolsets_all_registers_nothing_run :
  let r := github.InitToolsets sample.catalog ["all"] false (sample.empty false) in
  "all" ∈ ["all"]
  ∧ r.1 = None
  ∧ (IsEnabled "repos" r.2).1 = true
  ∧ host (RegisterTools r.2).2 = [].
Proof.
  intros r.
  assert ("all" ∈ ["all"]) as Hin by (by left).
  destruct (InitMore.InitToolsets_all_registers_nothing sample.catalog ["all"] false
              (sample.empty false) Hin) as (Hnone & Hon & _ & Hhost).
  { intros name Hn. by apply list_elem_of_singleton in Hn. }
  split; [exact Hin|]. split; [exact Hnone|]. split; [exact (Hon "repos")|exact Hhost].
Defined.

End MoreRuns.
End MoreRuns.
